(** * test-signer: the marker locator, the overlay composer and the run

    A shallow embedding of [src/main.py].  The program converts a spreadsheet
    to a PDF with an external converter, looks for the markers ["Signature:"]
    and ["Date:"] in the text of the first two pages, draws a signature image
    and a date on overlays, merges them, and stores the first 19 pages.

    Conventions of the embedding.
    - A Python [str] is a [list ascii]: text is taken over the ASCII
      repertoire, where [str.lower], [str.strip], [\d] and [\b] have the
      tables written out below.
    - Coordinates are integers ([Z]).  In the source [letter[1]] is the float
      [792.0] and [blank_image_height / 2] is the float [5.0]; every value the
      program computes from them is integral, so the arithmetic is exact.
    - A fallible computation returns [exn + A], where [exn] stands for the
      instances of [Exception]; the run threads a [World] (key-value store,
      file system, log of external effects) through a state and error monad.
    - The libraries are capabilities: a page carries the outcome of its
      [extract_text()], a canvas records the drawing calls it receives, a PDF
      file is the list of pages it encodes, and the converter is a parameter
      that maps a command line and a file system to a completed process and
      a file system.
    - Logging calls are left out: they have no effect on any result. *)

From stdpp Require Import base option list gmap strings.
From Stdlib Require Import ZArith Ascii Lia.

Local Open Scope Z_scope.

(** ** Python strings *)

Abbreviation str := (list ascii).

Definition py (s : string) : str := String.list_ascii_of_string s.

Definition code (c : ascii) : N := N_of_ascii c.

Definition in_range (lo hi : N) (c : ascii) : bool :=
  ((lo <=? code c) && (code c <=? hi))%N.

Definition is_upper (c : ascii) : bool := in_range 65 90 c.
Definition is_lower (c : ascii) : bool := in_range 97 122 c.
Definition is_digit (c : ascii) : bool := in_range 48 57 c.

(** [\w] on ASCII text: letters, digits and the underscore. *)
Definition is_word (c : ascii) : bool :=
  is_upper c || is_lower c || is_digit c || (code c =? 95)%N.

(** The characters [str.strip()] removes: tab, line feed, vertical tab, form
    feed, carriage return, the four separators 0x1c..0x1f and the space. *)
Definition is_space (c : ascii) : bool :=
  in_range 9 13 c || in_range 28 31 c || (code c =? 32)%N.

Definition lower_char (c : ascii) : ascii :=
  if is_upper c then ascii_of_N (code c + 32) else c.

(** [s.lower()] *)
Definition lower (s : str) : str := map lower_char s.

Fixpoint starts_with (p s : str) : bool :=
  match p, s with
  | [], _ => true
  | _ :: _, [] => false
  | a :: p', b :: s' => if decide (a = b) then starts_with p' s' else false
  end.

(** [needle in hay] *)
Fixpoint contains (needle hay : str) : bool :=
  starts_with needle hay ||
  match hay with
  | [] => false
  | _ :: hay' => contains needle hay'
  end.

(** [s.split('\n')]: always at least one piece. *)
Fixpoint split_nl (s : str) : list str :=
  match s with
  | [] => [[]]
  | c :: s' =>
      if decide (c = "010"%char) then [] :: split_nl s'
      else match split_nl s' with
           | [] => [[c]]
           | l :: ls => (c :: l) :: ls
           end
  end.

Fixpoint lstrip (s : str) : str :=
  match s with
  | [] => []
  | c :: s' => if is_space c then lstrip s' else s
  end.

Definition rstrip (s : str) : str := rev (lstrip (rev s)).

(** [s.strip()] *)
Definition strip (s : str) : str := lstrip (rstrip s).

(** ** Regular expressions: the fragment of [re] the pattern uses *)

Inductive regex : Type :=
  | Lit (c : ascii)
  | Digit
  | WordB
  | Seq (r1 r2 : regex)
  | Repeat (r : regex) (lo hi : nat)
  | Group (r : regex).

(** [\b] looks at the character before and the character after the position;
    outside the string counts as a non-word character. *)
Definition word_at (c : option ascii) : bool :=
  match c with
  | Some a => is_word a
  | None => false
  end.

Definition at_boundary (prev next : option ascii) : bool :=
  xorb (word_at prev) (word_at next).

(** A matcher consumes a prefix of the remaining input and hands the rest,
    with the last character consumed, to its continuation. *)
Definition cont : Type := option ascii → str → bool.
Definition matcher : Type := option ascii → str → cont → bool.

Fixpoint times (m : matcher) (n : nat) : matcher :=
  λ prev s k,
    match n with
    | O => k prev s
    | S n' => m prev s (λ prev' s', times m n' prev' s' k)
    end.

Fixpoint upto (m : matcher) (n : nat) : matcher :=
  λ prev s k,
    match n with
    | O => k prev s
    | S n' => m prev s (λ prev' s', upto m n' prev' s' k) || k prev s
    end.

Fixpoint match_re (r : regex) : matcher :=
  λ prev s k,
    match r with
    | Lit c =>
        match s with
        | a :: s' => if decide (a = c) then k (Some a) s' else false
        | [] => false
        end
    | Digit =>
        match s with
        | a :: s' => is_digit a && k (Some a) s'
        | [] => false
        end
    | WordB => at_boundary prev (head s) && k prev s
    | Seq r1 r2 => match_re r1 prev s (λ prev' s', match_re r2 prev' s' k)
    | Repeat r' lo hi =>
        times (match_re r') lo prev s
          (λ prev' s', upto (match_re r') (hi - lo) prev' s' k)
    | Group r' => match_re r' prev s k
    end.

Fixpoint search_from (r : regex) (prev : option ascii) (s : str) : bool :=
  match_re r prev s (λ _ _, true) ||
  match s with
  | [] => false
  | c :: s' => search_from r (Some c) s'
  end.

(** [bool(re.search(r, s))] *)
Definition re_search (r : regex) (s : str) : bool := search_from r None s.

(** ** Configuration (lines 17-31) *)

Definition SIGNATURE_MARKER : str := Eval cbv in py "Signature:".
Definition DATE_MARKER : str := Eval cbv in py "Date:".

(** [r'\b(\d{1,2}/\d{1,2}/\d{4})\b'] *)
Definition DATE_PATTERN : regex :=
  Seq WordB
    (Seq (Group (Seq (Repeat Digit 1 2)
                  (Seq (Lit "/")
                    (Seq (Repeat Digit 1 2)
                      (Seq (Lit "/") (Repeat Digit 4 4))))))
         WordB).

Definition coord : Type := Z * Z.

Definition default_signature_coords : coord := (250, 293).
Definition default_date_coords : coord := (260, 259).
Definition default_signature_p2 : coord := (230, 162).
Definition font_size : Z := 9.
Definition signature_width : Z := 120.
Definition signature_height : Z := 30.
Definition blank_image_width : Z := 80.
Definition blank_image_height : Z := 10.
Definition signature_width2 : Z := 160.
Definition signature_height2 : Z := 20.

(** [reportlab.lib.pagesizes.letter]: 8.5 x 11 inches at 72 points. *)
Definition letter : coord := (612, 792).

(** ** Exceptions and fallible results *)

Inductive exn : Type :=
  | ValueError (msg : str)
  | FileNotFoundError (msg : str)
  | IndexError
  | TypeError
  | PdfReadError
  | OtherError (msg : str).

#[global] Instance exn_eq_dec : EqDecision exn.
Proof. solve_decision. Defined.

#[global] Instance result_ret : MRet (sum exn) := λ _ x, inr x.
#[global] Instance result_bind : MBind (sum exn) :=
  λ _ _ f m, match m with inl e => inl e | inr a => f a end.

Definition raise {A} (e : exn) : exn + A := inl e.

(** [try: body  except Exception: return fallback] *)
Definition try_except {A} (body : exn + A) (fallback : A) : exn + A :=
  match body with
  | inl _ => inr fallback
  | inr a => inr a
  end.

(** ** Pages, canvases and overlays *)

Inductive draw_op : Type :=
  | DrawImage (image : str) (x y width height : Z)
  | DrawString (x y : Z) (text : str) (font : str) (size : Z).

#[global] Instance draw_op_eq_dec : EqDecision draw_op.
Proof. solve_decision. Defined.

(** What [canvas.save()] leaves in the packet: the operations in order. *)
Definition overlay : Type := list draw_op.

(** A page of the reader.  [page_text] is what [extract_text()] does on this
    page: raise, return [None], or return a string.  [page_merged] are the
    overlays merged onto the page so far, oldest first. *)
Record Page : Type := mkPage {
  page_content : str;
  page_text : exn + option str;
  page_merged : list overlay
}.

Definition extract_text (p : Page) : exn + option str := page_text p.

Definition merge_page (p : Page) (ov : overlay) : Page :=
  {| page_content := page_content p;
     page_text := page_text p;
     page_merged := page_merged p ++ [ov] |}.

(** ** The marker locator (lines 101-121) *)

(** The [for i, line in enumerate(lines)] loop, at index [i] with [rest] the
    lines still to visit. *)
Fixpoint scan_lines (lines : list str) (marker : str) (i : nat)
    (rest : list str) : option coord * bool :=
  match rest with
  | [] => (None, false)
  | line :: rest' =>
      if contains (lower marker) (lower line) then
        let y := letter.2 - (Z.of_nat i + 1) * 20 in
        let x := 100 in
        let has_date :=
          if decide (marker = DATE_MARKER) then
            let current_line := strip line in
            let next_line :=
              if (i + 1 <? length lines)%nat
              then strip (nth (i + 1) lines [])
              else [] in
            re_search DATE_PATTERN current_line
            || re_search DATE_PATTERN next_line
          else false in
        (Some (x, y), has_date)
      else scan_lines lines marker (S i) rest'
  end.

Definition find_text_coordinates_body (page : Page) (marker : str)
    : exn + (option coord * bool) :=
  text_data ← extract_text page;
  match text_data with
  | None | Some [] => mret (None, false)
  | Some text =>
      let lines := split_nl text in
      mret (scan_lines lines marker 0 lines)
  end.

Definition find_text_coordinates (page : Page) (marker : str)
    : exn + (option coord * bool) :=
  try_except (find_text_coordinates_body page marker) (None, false).

(** ** The drawing surface: [reportlab.pdfgen.canvas.Canvas] *)

Record Canvas : Type := mkCanvas {
  canvas_font : str * Z;
  canvas_ops : list draw_op
}.

(** [canvas.Canvas(packet, pagesize=letter)]: the initial font of a canvas is
    Helvetica at 12 points. *)
Definition new_canvas : Canvas :=
  {| canvas_font := (py "Helvetica", 12); canvas_ops := [] |}.

Definition drawImage (c : Canvas) (image : str) (x y width height : Z)
    : Canvas :=
  {| canvas_font := canvas_font c;
     canvas_ops := canvas_ops c ++ [DrawImage image x y width height] |}.

Definition setFont (c : Canvas) (name : str) (size : Z) : Canvas :=
  {| canvas_font := (name, size); canvas_ops := canvas_ops c |}.

Definition drawString (c : Canvas) (x y : Z) (text : str) : Canvas :=
  {| canvas_font := canvas_font c;
     canvas_ops :=
       canvas_ops c
       ++ [DrawString x y text (canvas_font c).1 (canvas_font c).2] |}.

(** [c.save(); packet.seek(0); PdfReader(packet).pages[0]] *)
Definition save (c : Canvas) : overlay := canvas_ops c.

(** ** The overlay composer (lines 123-176) *)

(** [l[i]] *)
Definition index {A} (l : list A) (i : nat) : exn + A :=
  match l !! i with
  | Some a => inr a
  | None => raise IndexError
  end.

(** [l[a:b]] for [0 <= a] and [0 <= b] *)
Definition slice {A} (l : list A) (a b : nat) : list A :=
  take (b - a) (drop a l).

(** [c or d]: a pair is never falsy, so only [None] takes the default. *)
Definition or_default (c : option coord) (d : coord) : coord :=
  match c with
  | Some c' => c'
  | None => d
  end.

(** Lines 127-172: from the pages of the reader to the pages added to the
    writer, in the order of the [add_page] calls. *)
Definition compose_pages (reader_pages : list Page)
    (signature_img blank_img date_text : str) : exn + list Page :=
  let total := length reader_pages in
  let end_ix := min 19 total in
  (* Process page 1 *)
  page0 ← index reader_pages 0;
  let c0 := new_canvas in
  '(sig_coords0, _) ← find_text_coordinates page0 SIGNATURE_MARKER;
  '(date_coords, has_date) ← find_text_coordinates page0 DATE_MARKER;
  let sig_coords0 := or_default sig_coords0 default_signature_coords in
  let sig_coords0 := (sig_coords0.1 + 80, sig_coords0.2 - 10) in
  let date_coords := or_default date_coords default_date_coords in
  let date_coords := (date_coords.1 + 80, date_coords.2 - 10) in
  let c0 :=
    drawImage c0 signature_img sig_coords0.1 sig_coords0.2
      signature_width signature_height in
  let c0 :=
    if negb has_date then
      let c0 :=
        drawImage c0 blank_img date_coords.1 date_coords.2
          blank_image_width blank_image_height in
      let c0 := setFont c0 (py "Helvetica") font_size in
      let date_y := date_coords.2 + blank_image_height / 2 in
      drawString c0 date_coords.1 date_y date_text
    else c0 in
  let overlay0 := save c0 in
  let page0 := merge_page page0 overlay0 in
  let writer := [page0] in
  (* Process page 2 if it exists *)
  if (1 <? total)%nat then
    page1 ← index reader_pages 1;
    let c1 := new_canvas in
    '(sig_coords1, _) ← find_text_coordinates page1 SIGNATURE_MARKER;
    let sig_coords1 := or_default sig_coords1 default_signature_p2 in
    let sig_coords1 := (sig_coords1.1 + 80, sig_coords1.2 - 10) in
    let c1 :=
      drawImage c1 signature_img sig_coords1.1 sig_coords1.2
        signature_width2 signature_height2 in
    let overlay1 := save c1 in
    let page1 := merge_page page1 overlay1 in
    let writer := writer ++ [page1] in
    mret (writer ++ slice reader_pages 2 end_ix)
  else
    mret (writer ++ slice reader_pages 1 end_ix).

(** ** [os.path] on POSIX paths *)

Definition sep : ascii := "/"%char.
Definition extsep : ascii := "."%char.

Definition ends_with (c : ascii) (s : str) : bool :=
  match last s with
  | Some a => bool_decide (a = c)
  | None => false
  end.

(** [os.path.join(a, b)] *)
Definition os_path_join (a b : str) : str :=
  if starts_with [sep] b then b
  else if bool_decide (a = []) || ends_with sep a then a ++ b
  else a ++ sep :: b.

(** [s.rfind(c)], with [-1] when [c] does not occur; [i] is the index of the
    head of [s]. *)
Fixpoint rfind_from (c : ascii) (i : Z) (s : str) : Z :=
  match s with
  | [] => -1
  | a :: s' =>
      let r := rfind_from c (i + 1) s' in
      if 0 <=? r then r else if decide (a = c) then i else -1
  end.

Definition rfind (c : ascii) (s : str) : Z := rfind_from c 0 s.

(** [os.path.basename(p)] *)
Definition os_path_basename (p : str) : str :=
  drop (Z.to_nat (rfind sep p + 1)) p.

(** [os.path.splitext(p)]: the extension starts at the last dot of the last
    component, unless only dots precede it there. *)
Definition os_path_splitext (p : str) : str * str :=
  let sepIndex := rfind sep p in
  let dotIndex := rfind extsep p in
  if (sepIndex <? dotIndex)
     && existsb (λ a, negb (bool_decide (a = extsep)))
          (slice p (Z.to_nat (sepIndex + 1)) (Z.to_nat dotIndex))
  then (take (Z.to_nat dotIndex) p, drop (Z.to_nat dotIndex) p)
  else (p, []).

(** ** The world of a run *)

(** The contents of a blob or of a file.  A PDF is kept as the pages it
    encodes: writing a document and reading it back gives its pages. *)
Inductive data : Type :=
  | Bytes (b : str)
  | Pdf (pages : list Page).

(** [not d] for a value fetched from the store: [None] and empty bytes are
    falsy. *)
Definition falsy (d : option data) : bool :=
  match d with
  | None | Some (Bytes []) => true
  | Some _ => false
  end.

Inductive event : Type :=
  | FileWritten (path : str)
  | ConverterRun (cmd : list str)
  | BlobStored (key content_type : str)
  | DataPushed (status output_file : str).

Record World : Type := mkWorld {
  actor_input : option (gmap str str);
  kv_store : gmap str data;
  files : gmap str data;
  effects : list event
}.

Definition M (A : Type) : Type := World → (exn + A) * World.

#[global] Instance M_ret : MRet M := λ _ a w, (inr a, w).
#[global] Instance M_bind : MBind M :=
  λ _ _ f m w,
    match m w with
    | (inl e, w') => (inl e, w')
    | (inr a, w') => f a w'
    end.

Definition throw {A} (e : exn) : M A := λ w, (inl e, w).
Definition lift {A} (r : exn + A) : M A := λ w, (r, w).

Definition log_effect (e : event) (w : World) : World :=
  {| actor_input := actor_input w; kv_store := kv_store w;
     files := files w; effects := effects w ++ [e] |}.

(** [await Actor.get_input()] *)
Definition Actor_get_input : M (option (gmap str str)) :=
  λ w, (inr (actor_input w), w).

(** [await kv_store.get_value(key)] *)
Definition get_value (key : str) : M (option data) :=
  λ w, (inr (kv_store w !! key), w).

(** [await kv_store.set_value(key, value, content_type=...)] *)
Definition set_value (key : str) (value : data) (content_type : str)
    : M unit :=
  λ w,
    (inr (),
     log_effect (BlobStored key content_type)
       {| actor_input := actor_input w;
          kv_store := <[key := value]> (kv_store w);
          files := files w; effects := effects w |}).

(** [await Actor.push_data({"status": ..., "output_file": ...})] *)
Definition push_data (status output_file : str) : M unit :=
  λ w, (inr (), log_effect (DataPushed status output_file) w).

(** [with open(path, 'wb') as f: f.write(value)] *)
Definition write_file (path : str) (value : data) : M unit :=
  λ w,
    (inr (),
     log_effect (FileWritten path)
       {| actor_input := actor_input w; kv_store := kv_store w;
          files := <[path := value]> (files w); effects := effects w |}).

(** [f.write(value)] for a value fetched from the store; [None] is not
    bytes.  In [main] the check of line 50 comes first, so the values written
    are never [None]. *)
Definition f_write (path : str) (value : option data) : M unit :=
  match value with
  | Some v => write_file path v
  | None => throw TypeError
  end.

(** [with open(path, 'rb') as f: f.read()] *)
Definition read_file (path : str) : M data :=
  λ w,
    match files w !! path with
    | Some d => (inr d, w)
    | None => (inl (FileNotFoundError path), w)
    end.

(** [os.path.exists(path)] *)
Definition os_path_exists (path : str) : M bool :=
  λ w, (inr (bool_decide (is_Some (files w !! path))), w).

(** [PdfReader(path)], then its [pages] *)
Definition PdfReader (path : str) : M (list Page) :=
  d ← read_file path;
  match d with
  | Pdf pages => mret pages
  | Bytes _ => throw PdfReadError
  end.

Record CompletedProcess : Type := mkCompleted {
  returncode : Z;
  stdout : str;
  stderr : str
}.

(** [tempfile.TemporaryDirectory()] removes the directory and what is in it
    when the block is left, on success and on an exception alike. *)
Definition cleanup (dir : str) (w : World) : World :=
  {| actor_input := actor_input w; kv_store := kv_store w;
     files :=
       filter (λ kv, starts_with (dir ++ [sep]) kv.1 = false) (files w);
     effects := effects w |}.

Definition with_TemporaryDirectory {A} (dir : str) (body : str → M A) : M A :=
  λ w, let '(r, w') := body dir w in (r, cleanup dir w').

Section Run.

(** The external converter: what running the command line does to the file
    system, and the completed process it reports. *)
Variable soffice_run : list str → gmap str data → CompletedProcess * gmap str data.

(** [datetime.now().strftime("%m/%d/%Y")] at start-up. *)
Variable today_date : str.

(** The name [tempfile.TemporaryDirectory()] picks. *)
Variable temp_dir : str.

(** [subprocess.run(cmd, capture_output=True, text=True)] *)
Definition subprocess_run (cmd : list str) : M CompletedProcess :=
  λ w,
    let '(result, files') := soffice_run cmd (files w) in
    (inr result,
     log_effect (ConverterRun cmd)
       {| actor_input := actor_input w; kv_store := kv_store w;
          files := files'; effects := effects w |}).

Definition soffice : str := py "/usr/lib/libreoffice/program/soffice".

Definition pdf_out_of (xlsx_path out_dir : str) : str :=
  let base := (os_path_splitext (os_path_basename xlsx_path)).1 in
  os_path_join out_dir (base ++ py ".pdf").

Definition soffice_cmd (xlsx_path out_dir : str) : list str :=
  [soffice; py "--headless"; py "--convert-to"; py "pdf";
   py "--outdir"; out_dir; xlsx_path].

(** Lines 83-99. *)
Definition convert_xlsx_to_pdf (xlsx_path out_dir : str) : M str :=
  let pdf_out := pdf_out_of xlsx_path out_dir in
  let cmd := soffice_cmd xlsx_path out_dir in
  result ← subprocess_run cmd;
  pdf_exists ← os_path_exists pdf_out;
  if (returncode result =? 0) && pdf_exists then mret pdf_out
  else throw (FileNotFoundError (py "Conversion failed: " ++ stderr result)).

(** Lines 123-176. *)
Definition add_signature_and_date
    (input_pdf signature_img blank_img output_pdf date_text : str)
    : M unit :=
  reader_pages ← PdfReader input_pdf;
  writer ← lift (compose_pages reader_pages signature_img blank_img
                   date_text);
  write_file output_pdf (Pdf writer).

(** Lines 33-81. *)
Definition main : M unit :=
  input ← Actor_get_input;
  let input_data : gmap str str := default ∅ input in
  let xlsx_key := input_data !! py "xlsx_key" in
  let signature_key :=
    default (py "signature.png") (input_data !! py "signature_key") in
  let blank_image_key :=
    default (py "line.png") (input_data !! py "blank_image_key") in
  match xlsx_key with
  | None | Some [] =>
      throw (ValueError (py "No XLSX file key provided in input"))
  | Some xlsx_key =>
      xlsx_data ← get_value xlsx_key;
      signature_data ← get_value signature_key;
      blank_image_data ← get_value blank_image_key;
      if falsy xlsx_data || falsy signature_data || falsy blank_image_data
      then throw (FileNotFoundError
                    (py "One or more input files not found in key-value store"))
      else
        with_TemporaryDirectory temp_dir (λ temp_dir,
          let xlsx_path := os_path_join temp_dir (py "input.xlsx") in
          let signature_path := os_path_join temp_dir (py "signature.png") in
          let blank_image_path := os_path_join temp_dir (py "line.png") in
          let output_pdf_path := os_path_join temp_dir (py "output.pdf") in
          f_write xlsx_path xlsx_data;;
          f_write signature_path signature_data;;
          f_write blank_image_path blank_image_data;;
          pdf_path ← convert_xlsx_to_pdf xlsx_path temp_dir;
          add_signature_and_date pdf_path signature_path blank_image_path
            output_pdf_path today_date;;
          output ← read_file output_pdf_path;
          let output_key := py "signed_" ++ xlsx_key ++ py ".pdf" in
          set_value output_key output (py "application/pdf");;
          push_data (py "success") output_key)
  end.

End Run.

(** ** Specification vocabulary *)

(** The character before the position reached after reading [w], when
    [prev] was the character before [w]. *)
Definition last_char (prev : option ascii) (w : str) : option ascii :=
  match last w with
  | Some c => Some c
  | None => prev
  end.

(** A context-aware language: [d prev w rest] says the word [w] is accepted
    when it follows the character [prev] and is followed by [rest]. *)
Definition lang : Type := option ascii → str → str → Prop.

Fixpoint den_pow (d : lang) (n : nat) : lang :=
  λ prev w rest,
    match n with
    | O => w = []
    | S n' =>
        ∃ w1 w2, w = w1 ++ w2 ∧ d prev w1 (w2 ++ rest)
                 ∧ den_pow d n' (last_char prev w1) w2 rest
    end.

(** What a pattern matches, read off the documentation of [re]. *)
Fixpoint den (r : regex) : lang :=
  λ prev w rest,
    match r with
    | Lit c => w = [c]
    | Digit => ∃ c, w = [c] ∧ is_digit c = true
    | WordB => w = [] ∧ at_boundary prev (head rest) = true
    | Seq r1 r2 =>
        ∃ w1 w2, w = w1 ++ w2 ∧ den r1 prev w1 (w2 ++ rest)
                 ∧ den r2 (last_char prev w1) w2 rest
    | Repeat r' lo hi =>
        ∃ n, (lo ≤ n ≤ lo + (hi - lo))%nat ∧ den_pow (den r') n prev w rest
    | Group r' => den r' prev w rest
    end.

Definition matcher_ok (d : lang) (m : matcher) : Prop :=
  ∀ prev s k,
    m prev s k = true ↔
    ∃ w rest, s = w ++ rest ∧ d prev w rest ∧ k (last_char prev w) rest = true.

Definition all_digits (w : str) : Prop := Forall (λ c, is_digit c = true) w.

(** One or two digits, a slash, one or two digits, a slash, four digits. *)
Definition date_shaped (w : str) : Prop :=
  ∃ a b c,
    w = a ++ "/"%char :: b ++ "/"%char :: c
    ∧ all_digits a ∧ all_digits b ∧ all_digits c
    ∧ (1 ≤ length a ≤ 2)%nat ∧ (1 ≤ length b ≤ 2)%nat ∧ length c = 4%nat.

(** [line] has a substring that matches [\b(\d{1,2}/\d{1,2}/\d{4})\b]: a
    date-shaped substring with no word character right before or after. *)
Definition contains_date (line : str) : Prop :=
  ∃ pre w post,
    line = pre ++ w ++ post ∧ date_shaped w
    ∧ word_at (last pre) = false ∧ word_at (head post) = false.

(** [a] and [b] are equal up to the case of ASCII letters. *)
Definition same_caseless (a b : str) : Prop := lower a = lower b.

(** [line] has a substring equal to [marker] up to case. *)
Definition contains_caseless (marker line : str) : Prop :=
  ∃ pre mid post, line = pre ++ mid ++ post ∧ same_caseless mid marker.

(** The lines of a page text: an empty text has no line, any other text is
    cut at its line feeds. *)
Definition page_lines (text : str) : list str :=
  match text with
  | [] => []
  | _ => split_nl text
  end.

(** [i] is the index of the first line that contains [marker] up to case. *)
Definition first_match (marker : str) (lines : list str) (i : nat)
    (line : str) : Prop :=
  lines !! i = Some line ∧ contains_caseless marker line
  ∧ ∀ j l, (j < i)%nat → lines !! j = Some l → ¬ contains_caseless marker l.

Definition text_page (text : str) : Page :=
  {| page_content := []; page_text := inr (Some text); page_merged := [] |}.

(** The date check of lines 113-117 at the matching line. *)
Definition has_date_at (lines : list str) (marker : str) (i : nat)
    (line : str) : bool :=
  if decide (marker = DATE_MARKER) then
    re_search DATE_PATTERN (strip line)
    || re_search DATE_PATTERN
         (if (i + 1 <? length lines)%nat then strip (nth (i + 1) lines [])
          else [])
  else false.

Definition shifted (c : coord) : coord := (c.1 + 80, c.2 - 10).

(** The overlay of page 1 for the outcome [(sc, _)] of the signature lookup
    and [(dc, has_date)] of the date lookup. *)
Definition page1_overlay (sc dc : option coord) (has_date : bool)
    (signature_img blank_img date_text : str) : overlay :=
  let s := shifted (or_default sc (250, 293)) in
  let d := shifted (or_default dc (260, 259)) in
  DrawImage signature_img s.1 s.2 120 30
  :: (if has_date then []
      else [DrawImage blank_img d.1 d.2 80 10;
            DrawString d.1 (d.2 + 5) date_text (py "Helvetica") 9]).

(** The overlay of page 2 for the outcome [(sc, _)] of its signature
    lookup. *)
Definition page2_overlay (sc : option coord) (signature_img : str) : overlay :=
  let s := shifted (or_default sc (230, 162)) in
  [DrawImage signature_img s.1 s.2 160 20].

Definition signature_key_of (w : World) : str :=
  default (py "signature.png")
    (default ∅ (actor_input w) !! py "signature_key").

Definition blank_image_key_of (w : World) : str :=
  default (py "line.png")
    (default ∅ (actor_input w) !! py "blank_image_key").

(** The world after the three input files are written (lines 60-65). *)
Definition staged (dir : str) (x s b : data) (w : World) : World :=
  (write_file (os_path_join dir (py "line.png")) b
     (write_file (os_path_join dir (py "signature.png")) s
        (write_file (os_path_join dir (py "input.xlsx")) x w).2).2).2.

Section RunVocabulary.

Variable soffice_run : list str → gmap str data → CompletedProcess * gmap str data.

(** The world the converter leaves: its files, and the run logged. *)
Definition after_converter (cmd : list str) (w : World) : World :=
  log_effect (ConverterRun cmd)
    {| actor_input := actor_input w; kv_store := kv_store w;
       files := (soffice_run cmd (files w)).2; effects := effects w |}.

Definition converter_result (cmd : list str) (w : World) : CompletedProcess :=
  (soffice_run cmd (files w)).1.

(** The converter failed: non-zero status, or no output file. *)
Definition conversion_failed (xlsx_path out_dir : str) (w : World) : Prop :=
  let cmd := soffice_cmd xlsx_path out_dir in
  returncode (converter_result cmd w) ≠ 0
  ∨ files (after_converter cmd w) !! pdf_out_of xlsx_path out_dir = None.

End RunVocabulary.

(** ** Instances used below *)

Definition nl : ascii := "010"%char.

Definition two_lines : str := py "abc" ++ nl :: py "xx SIGNATURE: yy".

Definition dated_text : str := py "Date:" ++ nl :: py " 1/2/2024 ".

Definition failing_page : Page :=
  {| page_content := py "page"; page_text := inl (OtherError (py "boom"));
     page_merged := [] |}.

(** Thirty-nine empty lines, then the marker on line 39. *)
Definition low_marker_text : str := replicate 39 nl ++ SIGNATURE_MARKER.

Definition marked_page (n : nat) : Page :=
  {| page_content := replicate n "x"%char;
     page_text := inr (Some (py "Signature: "));
     page_merged := [] |}.

Definition document (n : nat) : list Page := map marked_page (seq 0 n).

Definition disk (pages : list Page) : World :=
  {| actor_input := None; kv_store := ∅;
     files := {[py "in.pdf" := Pdf pages]}; effects := [] |}.

Definition demo_kv : gmap str data :=
  <[py "book" := Bytes (py "xlsx")]>
    (<[py "signature.png" := Bytes (py "sig")]>
       {[py "line.png" := Bytes (py "line")]}).

Definition demo_world : World :=
  {| actor_input := Some {[py "xlsx_key" := py "book"]};
     kv_store := demo_kv; files := ∅; effects := [] |}.

Definition keyless_world : World :=
  {| actor_input := None; kv_store := demo_kv; files := ∅; effects := [] |}.

Definition blobless_world : World :=
  {| actor_input := Some {[py "xlsx_key" := py "book"]};
     kv_store := {[py "book" := Bytes (py "xlsx")]};
     files := ∅; effects := [] |}.

(** A converter that writes a document of [n] pages and exits with 0. *)
Definition good_soffice (n : nat)
    : list str → gmap str data → CompletedProcess * gmap str data :=
  λ cmd fs,
    ({| returncode := 0; stdout := []; stderr := [] |},
     <[py "/tmp/t/input.pdf" := Pdf (document n)]> fs).

(** A converter that writes nothing and exits with 1. *)
Definition bad_soffice
    : list str → gmap str data → CompletedProcess * gmap str data :=
  λ cmd fs, ({| returncode := 1; stdout := []; stderr := py "boom" |}, fs).

(** ** Vocabulary for the further properties *)

(** ["\n".join(lines)] *)
Fixpoint join_nl (lines : list str) : str :=
  match lines with
  | [] => []
  | [l] => l
  | l :: ls => l ++ nl :: join_nl ls
  end.

(** The number of line feeds in a text. *)
Definition line_feeds (s : str) : nat := length (filter (λ c, c = nl) s).


(** The effects that publish a result: a stored blob, a pushed record. *)
Definition is_publication (e : event) : bool :=
  match e with
  | BlobStored _ _ | DataPushed _ _ => true
  | FileWritten _ | ConverterRun _ => false
  end.

(** The key of line 75, [f"signed_{xlsx_key}.pdf"]. *)
Definition signed_key (xlsx_key : str) : str :=
  py "signed_" ++ xlsx_key ++ py ".pdf".

Section RunOutcomeVocabulary.

Variable soffice_run : list str → gmap str data → CompletedProcess * gmap str data.
Variables today_date temp_dir : str.

(** The world in which the composer starts: inputs staged, converter run. *)
Definition converted (x s b : data) (w : World) : World :=
  after_converter soffice_run
    (soffice_cmd (os_path_join temp_dir (py "input.xlsx")) temp_dir)
    (staged temp_dir x s b w).

Definition expected_pdf : str :=
  pdf_out_of (os_path_join temp_dir (py "input.xlsx")) temp_dir.

(** What a successful run has gone through and what it leaves. *)
Definition succeeded (w w' : World) (k : str) (x s b : data)
    (pages out : list Page) : Prop :=
  default ∅ (actor_input w) !! py "xlsx_key" = Some k
  ∧ k ≠ []
  ∧ kv_store w !! k = Some x
  ∧ kv_store w !! signature_key_of w = Some s
  ∧ kv_store w !! blank_image_key_of w = Some b
  ∧ falsy (Some x) = false ∧ falsy (Some s) = false
  ∧ falsy (Some b) = false
  ∧ ¬ conversion_failed soffice_run
        (os_path_join temp_dir (py "input.xlsx")) temp_dir
        (staged temp_dir x s b w)
  ∧ files (converted x s b w) !! expected_pdf
    = Some (Pdf pages)
  ∧ compose_pages pages (os_path_join temp_dir (py "signature.png"))
      (os_path_join temp_dir (py "line.png")) today_date = inr out
  ∧ kv_store w' = <[signed_key k := Pdf out]> (kv_store w)
  ∧ effects w' =
      effects w
      ++ [FileWritten (os_path_join temp_dir (py "input.xlsx"));
          FileWritten (os_path_join temp_dir (py "signature.png"));
          FileWritten (os_path_join temp_dir (py "line.png"));
          ConverterRun
            (soffice_cmd (os_path_join temp_dir (py "input.xlsx")) temp_dir);
          FileWritten (os_path_join temp_dir (py "output.pdf"));
          BlobStored (signed_key k) (py "application/pdf");
          DataPushed (py "success") (signed_key k)].

(** What a failed run leaves: the store as it was, nothing published. *)
Definition failed_quietly (w w' : World) : Prop :=
  kv_store w' = kv_store w
  ∧ ∃ l, effects w' = effects w ++ l
         ∧ Forall (λ ev, is_publication ev = false) l.

End RunOutcomeVocabulary.

(** ** Further instances *)

Definition empty_key_world : World :=
  {| actor_input := Some {[py "xlsx_key" := []]};
     kv_store := demo_kv; files := ∅; effects := [] |}.

Definition empty_blob_world : World :=
  {| actor_input := Some {[py "xlsx_key" := py "book"]};
     kv_store := <[py "book" := Bytes []]> demo_kv;
     files := ∅; effects := [] |}.

(** A converter that exits with 0 and leaves a file that is not a PDF. *)
Definition garbage_soffice
    : list str → gmap str data → CompletedProcess * gmap str data :=
  λ cmd fs,
    ({| returncode := 0; stdout := []; stderr := [] |},
     <[py "/tmp/t/input.pdf" := Bytes (py "junk")]> fs).

(** * Proofs *)

(** ** The model on small inputs *)

Example split_nl_lines :
  split_nl (py "a" ++ nl :: nl :: py "b" ++ [nl]) = [py "a"; []; py "b"; []].
Proof. reflexivity. Qed.

Example strip_both_ends : strip (py "  a b ") = py "a b".
Proof. reflexivity. Qed.

Example lower_ascii : lower (py "SIGNATURE: _09Z[") = py "signature: _09z[".
Proof. reflexivity. Qed.

Example date_after_colon : re_search DATE_PATTERN (py "Date:12/1/2000.") = true.
Proof. reflexivity. Qed.

Example date_three_digits : re_search DATE_PATTERN (py "123/1/2000") = false.
Proof. reflexivity. Qed.

Example date_after_underscore :
  re_search DATE_PATTERN (py "x_1/1/2000") = false.
Proof. reflexivity. Qed.

Example date_five_digit_year : re_search DATE_PATTERN (py "1/1/20001") = false.
Proof. reflexivity. Qed.

Example splitext_last_dot :
  os_path_splitext (py "a/..x.tar.gz") = (py "a/..x.tar", py ".gz").
Proof. reflexivity. Qed.

Example splitext_leading_dot : os_path_splitext (py ".bashrc") = (py ".bashrc", []).
Proof. reflexivity. Qed.

Example pdf_out_in_temp_dir :
  pdf_out_of (py "/tmp/t/input.xlsx") (py "/tmp/t") = py "/tmp/t/input.pdf".
Proof. reflexivity. Qed.

Example locate_signature :
  find_text_coordinates (text_page two_lines) SIGNATURE_MARKER =
    inr (Some (100, 752), false).
Proof. reflexivity. Qed.

Example locate_date_with_date :
  find_text_coordinates (text_page dated_text) DATE_MARKER =
    inr (Some (100, 772), true).
Proof. reflexivity. Qed.

Example locate_in_empty_text :
  find_text_coordinates (text_page []) [] = inr (None, false).
Proof. reflexivity. Qed.

(** ** Characters *)

Lemma digit_is_word c : is_digit c = true → is_word c = true.
Proof.
  destruct c as [[] [] [] [] [] [] [] []]; vm_compute; congruence.
Qed.

Lemma space_not_word c : is_space c = true → is_word c = false.
Proof.
  destruct c as [[] [] [] [] [] [] [] []]; vm_compute; congruence.
Qed.

Lemma space_not_digit c : is_space c = true → is_digit c = false.
Proof.
  destruct c as [[] [] [] [] [] [] [] []]; vm_compute; congruence.
Qed.

(** ** The matcher accepts what the pattern denotes *)

Lemma last_char_nil prev : last_char prev [] = prev.
Proof. reflexivity. Qed.

Lemma last_char_app prev w1 w2 :
  last_char (last_char prev w1) w2 = last_char prev (w1 ++ w2).
Proof.
  unfold last_char. destruct w2 as [|c w2] using rev_ind.
  - by rewrite app_nil_r.
  - by rewrite app_assoc, !last_snoc.
Qed.

Lemma last_char_cons prev c w : last_char prev (c :: w) = last_char (Some c) w.
Proof. change (c :: w) with ([c] ++ w). by rewrite <- last_char_app. Qed.

Lemma times_ok d m n : matcher_ok d m → matcher_ok (den_pow d n) (times m n).
Proof.
  intros Hm. induction n as [|n IH]; intros prev s k; simpl.
  - split.
    + intros Hk. exists [], s. by rewrite last_char_nil.
    + intros (w & rest & -> & -> & Hk). by rewrite last_char_nil in Hk.
  - rewrite (Hm prev s). split.
    + intros (w1 & rest1 & -> & Hd & Hk). apply IH in Hk.
      destruct Hk as (w2 & rest & -> & Hp & Hk).
      exists (w1 ++ w2), rest. rewrite <- last_char_app, <- app_assoc.
      split_and!; [done| |done]. by exists w1, w2.
    + intros (w & rest & -> & (w1 & w2 & -> & Hd & Hp) & Hk).
      exists w1, (w2 ++ rest). rewrite <- app_assoc. split_and!; [done..|].
      apply IH. exists w2, rest. by rewrite last_char_app.
Qed.

Lemma upto_ok d m n :
  matcher_ok d m →
  matcher_ok (λ prev w rest, ∃ j, (j ≤ n)%nat ∧ den_pow d j prev w rest)
    (upto m n).
Proof.
  intros Hm. induction n as [|n IH]; intros prev s k; simpl.
  - split.
    + intros Hk. exists [], s. rewrite last_char_nil.
      split_and!; [done| |done]. by exists 0%nat.
    + intros (w & rest & -> & (j & Hj & Hp) & Hk).
      assert (j = 0%nat) as -> by lia. simpl in Hp. subst w.
      by rewrite last_char_nil in Hk.
  - rewrite orb_true_iff, (Hm prev s). split.
    + intros [(w1 & rest1 & -> & Hd & Hk)|Hk].
      * apply IH in Hk. destruct Hk as (w2 & rest & -> & (j & Hj & Hp) & Hk).
        exists (w1 ++ w2), rest. rewrite <- last_char_app, <- app_assoc.
        split_and!; [done| |done]. exists (S j). split; [lia|].
        by exists w1, w2.
      * exists [], s. rewrite last_char_nil. split_and!; [done| |done].
        exists 0%nat. split; [lia|done].
    + intros (w & rest & -> & (j & Hj & Hp) & Hk). destruct j as [|j].
      * simpl in Hp. subst w. right. by rewrite last_char_nil in Hk.
      * destruct Hp as (w1 & w2 & -> & Hd & Hp). left.
        exists w1, (w2 ++ rest). rewrite <- app_assoc. split_and!; [done..|].
        apply IH. exists w2, rest. rewrite last_char_app.
        split_and!; [done| |done]. exists j. split; [lia|done].
Qed.

Lemma den_pow_add d a b prev w rest :
  den_pow d (a + b) prev w rest ↔
  ∃ w1 w2, w = w1 ++ w2 ∧ den_pow d a prev w1 (w2 ++ rest)
           ∧ den_pow d b (last_char prev w1) w2 rest.
Proof.
  revert prev w. induction a as [|a IH]; intros prev w; simpl.
  - split.
    + intros Hp. by exists [], w.
    + by intros (w1 & w2 & -> & -> & Hp).
  - split.
    + intros (u & v & -> & Hd & Hp). apply IH in Hp.
      destruct Hp as (v1 & v2 & -> & Hp1 & Hp2).
      exists (u ++ v1), v2. split_and!.
      * by rewrite app_assoc.
      * exists u, v1. split_and!; [done| |done].
        by rewrite <- app_assoc in Hd.
      * by rewrite <- last_char_app.
    + intros (w1 & w2 & -> & (u & v1 & -> & Hd & Hp1) & Hp2).
      exists u, (v1 ++ w2). split_and!.
      * by rewrite app_assoc.
      * by rewrite <- app_assoc.
      * apply IH. exists v1, w2. by rewrite last_char_app.
Qed.

Lemma match_re_ok r : matcher_ok (den r) (match_re r).
Proof.
  induction r as [c| | |r1 IH1 r2 IH2|r IH lo hi|r IH]; intros prev s k;
    simpl.
  - destruct s as [|a s].
    + split; [done|]. intros (w & rest & Hs & -> & _). done.
    + case_decide as Hc.
      * subst a. split.
        -- intros Hk. by exists [c], s.
        -- intros (w & rest & Hs & -> & Hk). by simplify_eq/=.
      * split; [done|]. intros (w & rest & Hs & -> & _). by simplify_eq/=.
  - destruct s as [|a s].
    + split; [done|]. intros (w & rest & Hs & (c & -> & _) & _). done.
    + rewrite andb_true_iff. split.
      * intros [Ha Hk]. exists [a], s. split_and!; [done| |done]. by exists a.
      * intros (w & rest & Hs & (c & -> & Hc) & Hk). by simplify_eq/=.
  - rewrite andb_true_iff. split.
    + intros [Hb Hk]. by exists [], s.
    + intros (w & rest & -> & (-> & Hb) & Hk). done.
  - rewrite (IH1 prev s). split.
    + intros (w1 & rest1 & -> & Hd & Hk). apply IH2 in Hk.
      destruct Hk as (w2 & rest & -> & Hd2 & Hk).
      exists (w1 ++ w2), rest. rewrite <- last_char_app, <- app_assoc.
      split_and!; [done| |done]. by exists w1, w2.
    + intros (w & rest & -> & (w1 & w2 & -> & Hd1 & Hd2) & Hk).
      exists w1, (w2 ++ rest). rewrite <- app_assoc. split_and!; [done..|].
      apply IH2. exists w2, rest. by rewrite last_char_app.
  - rewrite (times_ok _ _ lo IH prev s). split.
    + intros (w1 & rest1 & -> & Hp & Hk).
      apply (upto_ok _ _ (hi - lo) IH) in Hk.
      destruct Hk as (w2 & rest & -> & (j & Hj & Hp2) & Hk).
      exists (w1 ++ w2), rest. rewrite <- last_char_app, <- app_assoc.
      split_and!; [done| |done]. exists (lo + j)%nat. split; [lia|].
      apply den_pow_add. by exists w1, w2.
    + intros (w & rest & -> & (n & Hn & Hp) & Hk).
      replace n with (lo + (n - lo))%nat in Hp by lia.
      apply den_pow_add in Hp. destruct Hp as (w1 & w2 & -> & Hp1 & Hp2).
      exists w1, (w2 ++ rest). rewrite <- app_assoc. split_and!; [done..|].
      apply (upto_ok _ _ (hi - lo) IH). exists w2, rest.
      rewrite last_char_app. split_and!; [done| |done].
      exists (n - lo)%nat. split; [lia|done].
  - apply IH.
Qed.

Lemma search_from_spec r prev s :
  search_from r prev s = true ↔
  ∃ pre w post, s = pre ++ w ++ post ∧ den r (last_char prev pre) w post.
Proof.
  revert prev. induction s as [|c s IH]; intros prev; simpl;
    rewrite orb_true_iff, (match_re_ok r prev).
  - split.
    + intros [(w & rest & Hs & Hd & _)|?]; [|done].
      by exists [], w, rest.
    + intros (pre & w & post & Hs & Hd). left.
      symmetry in Hs. apply app_eq_nil in Hs as [-> Hs].
      exists w, post. by rewrite last_char_nil in Hd.
  - rewrite IH. split.
    + intros [(w & rest & Hs & Hd & _)|(pre & w & post & -> & Hd)].
      * by exists [], w, rest.
      * exists (c :: pre), w, post. by rewrite last_char_cons.
    + intros (pre & w & post & Hs & Hd). destruct pre as [|a pre].
      * left. exists w, post. by rewrite last_char_nil in Hd.
      * right. simplify_eq/=. exists pre, w, post.
        by rewrite last_char_cons in Hd.
Qed.

(** ** The date pattern *)

Lemma den_pow_digit n prev w rest :
  den_pow (den Digit) n prev w rest ↔ length w = n ∧ all_digits w.
Proof.
  revert prev w. induction n as [|n IH]; intros prev w; simpl.
  - split.
    + intros ->. split; [done|constructor].
    + intros [Hl _]. by destruct w.
  - split.
    + intros (w1 & w2 & -> & (c & -> & Hc) & Hp). apply IH in Hp as [Hl Hd].
      split; [simpl; lia|]. by constructor.
    + intros [Hl Hd]. destruct w as [|c w]; [done|].
      inversion Hd; subst. exists [c], w. split_and!; [done|by exists c|].
      apply IH. split; [simpl in Hl; lia|done].
Qed.

Lemma den_repeat_digit lo hi prev w rest :
  den (Repeat Digit lo hi) prev w rest ↔
  (lo ≤ length w ≤ lo + (hi - lo))%nat ∧ all_digits w.
Proof.
  simpl. split.
  - intros (n & Hn & Hp). apply den_pow_digit in Hp as [<- Hd]. done.
  - intros [Hl Hd]. exists (length w). split; [done|].
    by apply den_pow_digit.
Qed.

Lemma date_shaped_head w :
  date_shaped w → ∃ c t, w = c :: t ∧ is_digit c = true.
Proof.
  intros (a & b & c & -> & Ha & _ & _ & Hla & _).
  destruct a as [|x a]; [simpl in Hla; lia|].
  inversion Ha; subst. by exists x, (a ++ "/"%char :: b ++ "/"%char :: c).
Qed.

Lemma date_shaped_last w :
  date_shaped w → ∃ c, last w = Some c ∧ is_digit c = true.
Proof.
  intros (a & b & c & -> & _ & _ & Hc & _ & _ & Hlc).
  destruct c as [|x c _] using rev_ind; [done|].
  apply Forall_app in Hc as [_ Hx]. inversion Hx; subst.
  exists x. split; [|done].
  change (a ++ "/"%char :: b ++ "/"%char :: c ++ [x])
    with (a ++ ["/"%char] ++ b ++ ["/"%char] ++ c ++ [x]).
  by rewrite !app_assoc, last_snoc.
Qed.

(** The group [(\d{1,2}/\d{1,2}/\d{4})] matches exactly the date-shaped
    words, whatever is around them. *)
Lemma den_date_group prev w rest :
  den (Group (Seq (Repeat Digit 1 2)
                (Seq (Lit "/")
                  (Seq (Repeat Digit 1 2)
                    (Seq (Lit "/") (Repeat Digit 4 4)))))) prev w rest
  ↔ date_shaped w.
Proof.
  cbn [den]. split.
  - intros (a & x1 & -> & Ha & s1 & x2 & -> & -> & b & x3 & -> & Hb
            & s2 & c & -> & -> & Hc).
    apply (den_repeat_digit 1 2) in Ha as [Hla Ha].
    apply (den_repeat_digit 1 2) in Hb as [Hlb Hb].
    apply (den_repeat_digit 4 4) in Hc as [Hlc Hc].
    exists a, b, c. split_and!; try done; lia.
  - intros (a & b & c & -> & Ha & Hb & Hc & Hla & Hlb & Hlc).
    exists a, ("/"%char :: b ++ "/"%char :: c). split_and!; [done| |].
    { apply (den_repeat_digit 1 2). split; [lia|done]. }
    exists ["/"%char], (b ++ "/"%char :: c). split_and!; [done..|].
    exists b, ("/"%char :: c). split_and!; [done| |].
    { apply (den_repeat_digit 1 2). split; [lia|done]. }
    exists ["/"%char], c. split_and!; [done..|].
    apply (den_repeat_digit 4 4). split; [lia|done].
Qed.

Lemma den_DATE_PATTERN prev w rest :
  den DATE_PATTERN prev w rest ↔
  date_shaped w ∧ word_at prev = false ∧ word_at (head rest) = false.
Proof.
  unfold DATE_PATTERN. cbn [den]. split.
  - intros (w1 & w2 & -> & [-> Hb1] & w3 & w4 & -> & Hg & [-> Hb2]).
    apply den_date_group in Hg. rewrite app_nil_r in *. simpl in *.
    split; [done|].
    destruct (date_shaped_head _ Hg) as (c & t & -> & Hc).
    destruct (date_shaped_last _ Hg) as (c' & Hl & Hc').
    unfold last_char in Hb2. rewrite Hl in Hb2.
    unfold at_boundary in *. simpl in *.
    rewrite (digit_is_word _ Hc) in Hb1.
    rewrite (digit_is_word _ Hc') in Hb2.
    split; [by destruct (word_at prev)|by destruct (word_at (head rest))].
  - intros (Hg & Hp & Hn).
    destruct (date_shaped_head _ Hg) as (c & t & Hw & Hc).
    destruct (date_shaped_last _ Hg) as (c' & Hl & Hc').
    exists [], w. split; [done|]. split.
    { split; [done|]. rewrite Hw. unfold at_boundary. simpl.
      by rewrite Hp, (digit_is_word _ Hc). }
    exists w, []. split; [by rewrite app_nil_r|]. split.
    { by apply (proj2 (den_date_group (last_char prev []) w ([] ++ rest))). }
    split; [done|]. unfold at_boundary, last_char. simpl. rewrite Hl. simpl.
    by rewrite Hn, (digit_is_word _ Hc').
Qed.

(** [re.search(DATE_PATTERN, s)] finds a match exactly when [s] contains a
    date. *)
Lemma re_search_date_spec s :
  re_search DATE_PATTERN s = true ↔ contains_date s.
Proof.
  unfold re_search, contains_date. rewrite search_from_spec.
  assert (Hl : ∀ pre, last_char None pre = last pre).
  { intros pre. unfold last_char. by destruct (last pre). }
  split.
  - intros (pre & w & post & -> & Hd). apply den_DATE_PATTERN in Hd.
    rewrite Hl in Hd. by exists pre, w, post.
  - intros (pre & w & post & -> & Hd). exists pre, w, post.
    split; [done|]. apply den_DATE_PATTERN. by rewrite Hl.
Qed.

(** Stripping white space neither creates nor removes a date. *)
Lemma contains_date_cons c s :
  is_word c = false → is_digit c = false →
  contains_date (c :: s) ↔ contains_date s.
Proof.
  intros Hw Hd. split.
  - intros (pre & w & post & Hs & Hg & Hp & Hn). destruct pre as [|a pre].
    + destruct (date_shaped_head _ Hg) as (x & t & -> & Hx).
      simplify_eq/=. congruence.
    + simplify_eq/=. exists pre, w, post. split_and!; [done..| |done].
      destruct pre as [|b pre]; [done|]. by rewrite last_cons_cons in Hp.
  - intros (pre & w & post & -> & Hg & Hp & Hn).
    exists (c :: pre), w, post. split_and!; [done..| |done].
    destruct pre as [|b pre]; [done|]. by rewrite last_cons_cons.
Qed.

Lemma contains_date_snoc c s :
  is_word c = false → is_digit c = false →
  contains_date (s ++ [c]) ↔ contains_date s.
Proof.
  intros Hw Hd. split.
  - intros (pre & w & post & Hs & Hg & Hp & Hn).
    destruct post as [|a post _] using rev_ind.
    + destruct (date_shaped_last _ Hg) as (x & Hl & Hx).
      rewrite app_nil_r in Hs.
      assert (last (s ++ [c]) = Some x) as Hlast.
      { rewrite Hs, <- Hl. destruct w as [|y w]; [done|].
        by rewrite last_app_cons. }
      rewrite last_snoc in Hlast. simplify_eq. congruence.
    + rewrite !app_assoc in Hs. apply app_inj_tail in Hs as [-> ->].
      exists pre, w, post. rewrite <- app_assoc. split_and!; [done..|].
      destruct post as [|b post]; [done|done].
  - intros (pre & w & post & -> & Hg & Hp & Hn).
    exists pre, w, (post ++ [c]). rewrite <- !app_assoc.
    split_and!; [done..|]. destruct post as [|b post]; [done|done].
Qed.

Lemma contains_date_lstrip s : contains_date (lstrip s) ↔ contains_date s.
Proof.
  induction s as [|c s IH]; [done|]. simpl.
  destruct (is_space c) eqn:Hc; [|done].
  rewrite IH. symmetry.
  apply contains_date_cons; [by apply space_not_word|by apply space_not_digit].
Qed.

Lemma rstrip_snoc s c :
  rstrip (s ++ [c]) = if is_space c then rstrip s else s ++ [c].
Proof.
  unfold rstrip. rewrite rev_app_distr. simpl.
  destruct (is_space c); [done|]. simpl. by rewrite rev_involutive.
Qed.

Lemma contains_date_rstrip s : contains_date (rstrip s) ↔ contains_date s.
Proof.
  induction s as [|c s IH] using rev_ind; [done|].
  rewrite rstrip_snoc. destruct (is_space c) eqn:Hc; [|done].
  rewrite IH. symmetry.
  apply contains_date_snoc; [by apply space_not_word|by apply space_not_digit].
Qed.

Lemma contains_date_strip s : contains_date (strip s) ↔ contains_date s.
Proof. unfold strip. by rewrite contains_date_lstrip, contains_date_rstrip. Qed.


(** ** Substring search *)

Lemma starts_with_spec p s : starts_with p s = true ↔ ∃ t, s = p ++ t.
Proof.
  revert s. induction p as [|a p IH]; intros s; simpl.
  - split; [by exists s|done].
  - destruct s as [|b s].
    + split; [done|]. by intros (t & ?).
    + case_decide as Hab.
      * subst b. rewrite IH. split.
        -- intros (t & ->). by exists t.
        -- intros (t & Ht). simplify_eq/=. by exists t.
      * split; [done|]. intros (t & Ht). by simplify_eq/=.
Qed.

Lemma contains_spec needle hay :
  contains needle hay = true ↔ ∃ pre post, hay = pre ++ needle ++ post.
Proof.
  induction hay as [|c hay IH]; simpl;
    rewrite orb_true_iff, starts_with_spec.
  - split.
    + intros [(t & Ht)|?]; [|done]. by exists [], t.
    + intros (pre & post & Hs). left. destruct pre; [|done].
      by exists post.
  - rewrite IH. split.
    + intros [(t & Ht)|(pre & post & ->)].
      * by exists [], t.
      * by exists (c :: pre), post.
    + intros (pre & post & Hs). destruct pre as [|a pre].
      * left. by exists post.
      * right. simplify_eq/=. by exists pre, post.
Qed.

(** The test of the source, [marker.lower() in line.lower()], is the search
    for a substring equal to the marker up to case. *)
Lemma contains_lower_iff marker line :
  contains (lower marker) (lower line) = true ↔ contains_caseless marker line.
Proof.
  rewrite contains_spec. unfold contains_caseless, same_caseless, lower.
  split.
  - intros (pre & post & Hs).
    apply map_eq_app in Hs as (pre' & x & -> & <- & Hs).
    apply map_eq_app in Hs as (mid & post' & -> & Hm & <-).
    by exists pre', mid, post'.
  - intros (pre & mid & post & -> & Hm).
    exists (map lower_char pre), (map lower_char post).
    by rewrite !map_app, Hm.
Qed.

Lemma not_contains_lower marker line :
  contains (lower marker) (lower line) = false ↔ ¬ contains_caseless marker line.
Proof. rewrite <- contains_lower_iff. by destruct (contains _ _). Qed.

(** ** The scan *)

Lemma scan_lines_none lines marker i rest :
  (∀ l, l ∈ rest → ¬ contains_caseless marker l) →
  scan_lines lines marker i rest = (None, false).
Proof.
  revert i. induction rest as [|l rest IH]; intros i Hno; simpl; [done|].
  assert (contains (lower marker) (lower l) = false) as ->.
  { apply not_contains_lower, Hno. by left. }
  apply IH. intros l' Hl'. apply Hno. by right.
Qed.

Lemma scan_lines_first lines marker i rest k line :
  first_match marker rest k line →
  scan_lines lines marker i rest =
    (Some (100, 792 - (Z.of_nat (i + k) + 1) * 20),
     has_date_at lines marker (i + k) line).
Proof.
  revert i k. induction rest as [|l rest IH]; intros i k (Hk & Hm & Hfirst).
  - done.
  - destruct k as [|k]; simpl.
    + simplify_eq/=. apply contains_lower_iff in Hm. rewrite Hm.
      by rewrite Nat.add_0_r.
    + assert (contains (lower marker) (lower l) = false) as ->.
      { apply not_contains_lower. apply (Hfirst 0%nat); [lia|done]. }
      rewrite (IH (S i) k).
      * by replace (S i + k)%nat with (i + S k)%nat by lia.
      * split_and!; [done..|]. intros j l' Hj Hl'.
        apply (Hfirst (S j)); [lia|done].
Qed.

Lemma find_text_coordinates_total page marker :
  ∃ r, find_text_coordinates page marker = inr r.
Proof.
  unfold find_text_coordinates, try_except.
  destruct (find_text_coordinates_body page marker) as [e|r]; eauto.
Qed.

Lemma find_text_coordinates_text page text marker :
  extract_text page = inr (Some text) →
  find_text_coordinates page marker =
    inr (scan_lines (page_lines text) marker 0 (page_lines text)).
Proof.
  intros Ht. unfold find_text_coordinates, find_text_coordinates_body.
  rewrite Ht. simpl. by destruct text.
Qed.

Lemma find_text_coordinates_degraded page marker :
  (∃ e, extract_text page = inl e) ∨ extract_text page = inr None
  ∨ extract_text page = inr (Some []) →
  find_text_coordinates page marker = inr (None, false).
Proof.
  unfold find_text_coordinates, find_text_coordinates_body.
  intros [(e & ->)|[->| ->]]; done.
Qed.


Lemma signature_marker_not_date : SIGNATURE_MARKER ≠ DATE_MARKER.
Proof. done. Qed.

(** ** The composer, page by page *)

Lemma take_cap {A} (r : list A) :
  take (19 `min` S (S (length r)) - 2) r = take 17 r.
Proof.
  destruct (decide (length r ≤ 17)%nat).
  - rewrite !take_ge by lia. done.
  - f_equal. lia.
Qed.

Lemma compose_pages_one p0 sig blank date sc hs dc hd :
  find_text_coordinates p0 SIGNATURE_MARKER = inr (sc, hs) →
  find_text_coordinates p0 DATE_MARKER = inr (dc, hd) →
  compose_pages [p0] sig blank date =
    inr [merge_page p0 (page1_overlay sc dc hd sig blank date)].
Proof.
  intros Hs Hd. unfold compose_pages. simpl. rewrite Hs. simpl.
  rewrite Hd. simpl. by destruct hd.
Qed.

Lemma compose_pages_more p0 p1 rest sig blank date sc hs dc hd sc1 hs1 :
  find_text_coordinates p0 SIGNATURE_MARKER = inr (sc, hs) →
  find_text_coordinates p0 DATE_MARKER = inr (dc, hd) →
  find_text_coordinates p1 SIGNATURE_MARKER = inr (sc1, hs1) →
  compose_pages (p0 :: p1 :: rest) sig blank date =
    inr (merge_page p0 (page1_overlay sc dc hd sig blank date)
         :: merge_page p1 (page2_overlay sc1 sig)
         :: take 17 rest).
Proof.
  intros Hs Hd Hs1. unfold compose_pages. simpl length.
  cbn [index lookup list_lookup raise mbind result_bind].
  rewrite Hs. cbn [mbind result_bind]. rewrite Hd. cbn [mbind result_bind].
  replace (1 <? S (S (length rest)))%nat with true
    by (symmetry; apply Nat.ltb_lt; lia).
  cbn [index lookup list_lookup raise mbind result_bind].
  rewrite Hs1. cbn [mbind result_bind mret result_ret].
  unfold slice. cbn [drop]. rewrite take_cap. by destruct hd.
Qed.

Lemma compose_pages_nil sig blank date :
  compose_pages [] sig blank date = inl IndexError.
Proof. done. Qed.

(** ** The run *)

Lemma add_signature_and_date_ok w input_pdf sig blank output_pdf date pages out :
  files w !! input_pdf = Some (Pdf pages) →
  compose_pages pages sig blank date = inr out →
  add_signature_and_date input_pdf sig blank output_pdf date w =
    write_file output_pdf (Pdf out) w.
Proof.
  intros Hin Hout.
  unfold add_signature_and_date, PdfReader, read_file, lift, mbind, M_bind.
  rewrite Hin. cbn. by rewrite Hout.
Qed.

Lemma add_signature_and_date_fails w input_pdf sig blank output_pdf date pages e :
  files w !! input_pdf = Some (Pdf pages) →
  compose_pages pages sig blank date = inl e →
  add_signature_and_date input_pdf sig blank output_pdf date w = (inl e, w).
Proof.
  intros Hin Hout.
  unfold add_signature_and_date, PdfReader, read_file, lift, mbind, M_bind.
  rewrite Hin. cbn. by rewrite Hout.
Qed.

Section RunFacts.

Variable soffice_run : list str → gmap str data → CompletedProcess * gmap str data.
Variables today_date temp_dir : str.

Lemma main_no_key w :
  default ∅ (actor_input w) !! py "xlsx_key" = None →
  main soffice_run today_date temp_dir w =
    (inl (ValueError (py "No XLSX file key provided in input")), w).
Proof.
  intros Hk. unfold main, Actor_get_input, mbind, M_bind.
  by rewrite Hk.
Qed.

Lemma main_missing_blob w k :
  default ∅ (actor_input w) !! py "xlsx_key" = Some k →
  k ≠ [] →
  kv_store w !! k = None ∨ kv_store w !! signature_key_of w = None
  ∨ kv_store w !! blank_image_key_of w = None →
  main soffice_run today_date temp_dir w =
    (inl (FileNotFoundError
            (py "One or more input files not found in key-value store")), w).
Proof.
  intros Hk Hne Hmiss.
  unfold main, Actor_get_input, get_value, mbind, M_bind.
  rewrite Hk. destruct k as [|c k]; [done|].
  fold (signature_key_of w). fold (blank_image_key_of w).
  assert (falsy (kv_store w !! (c :: k))
          || falsy (kv_store w !! signature_key_of w)
          || falsy (kv_store w !! blank_image_key_of w) = true) as ->; [|done].
  destruct Hmiss as [->|[->| ->]]; simpl; by rewrite ?orb_true_r.
Qed.

Lemma convert_xlsx_to_pdf_unfold xlsx_path out_dir w :
  let cmd := soffice_cmd xlsx_path out_dir in
  let result := converter_result soffice_run cmd w in
  let w' := after_converter soffice_run cmd w in
  convert_xlsx_to_pdf soffice_run xlsx_path out_dir w =
    if (returncode result =? 0)
       && bool_decide (is_Some (files w' !! pdf_out_of xlsx_path out_dir))
    then (inr (pdf_out_of xlsx_path out_dir), w')
    else (inl (FileNotFoundError
                 (py "Conversion failed: " ++ stderr result)), w').
Proof.
  unfold convert_xlsx_to_pdf, subprocess_run, os_path_exists,
    converter_result, after_converter, mbind, M_bind.
  destruct (soffice_run _ _) as [result files'] eqn:Hrun. cbn.
  by destruct (_ && _).
Qed.

Lemma conversion_failed_iff xlsx_path out_dir w :
  let cmd := soffice_cmd xlsx_path out_dir in
  (returncode (converter_result soffice_run cmd w) =? 0)
  && bool_decide (is_Some (files (after_converter soffice_run cmd w)
                             !! pdf_out_of xlsx_path out_dir)) = false
  ↔ conversion_failed soffice_run xlsx_path out_dir w.
Proof.
  cbn zeta. unfold conversion_failed.
  rewrite andb_false_iff, Z.eqb_neq, bool_decide_eq_false.
  by rewrite <- eq_None_not_Some.
Qed.

Lemma main_staged w k x s b :
  default ∅ (actor_input w) !! py "xlsx_key" = Some k →
  k ≠ [] →
  kv_store w !! k = Some x →
  kv_store w !! signature_key_of w = Some s →
  kv_store w !! blank_image_key_of w = Some b →
  falsy (Some x) = false → falsy (Some s) = false →
  falsy (Some b) = false →
  main soffice_run today_date temp_dir w =
    with_TemporaryDirectory temp_dir (λ temp_dir,
      let xlsx_path := os_path_join temp_dir (py "input.xlsx") in
      let signature_path := os_path_join temp_dir (py "signature.png") in
      let blank_image_path := os_path_join temp_dir (py "line.png") in
      let output_pdf_path := os_path_join temp_dir (py "output.pdf") in
      pdf_path ← convert_xlsx_to_pdf soffice_run xlsx_path temp_dir;
      add_signature_and_date pdf_path signature_path blank_image_path
        output_pdf_path today_date;;
      output ← read_file output_pdf_path;
      let output_key := py "signed_" ++ k ++ py ".pdf" in
      set_value output_key output (py "application/pdf");;
      push_data (py "success") output_key) (staged temp_dir x s b w).
Proof.
  intros Hk Hne Hx Hs Hb Fx Fs Fb.
  unfold main, Actor_get_input, get_value, mbind at 1 2 3 4, M_bind.
  rewrite Hk. destruct k as [|c k]; [done|].
  fold (signature_key_of w). fold (blank_image_key_of w).
  rewrite Hx, Hs, Hb, Fx, Fs, Fb. done.
Qed.

End RunFacts.

(** ** The marker locator: claims *)

Lemma scan_lines_no_date lines marker i rest :
  marker ≠ DATE_MARKER → (scan_lines lines marker i rest).2 = false.
Proof.
  intros Hm. revert i. induction rest as [|l rest IH]; intros i; simpl.
  - done.
  - destruct (contains _ _); [|apply IH]. simpl. by rewrite decide_False.
Qed.

Lemma find_text_coordinates_no_date page marker c has_date :
  marker ≠ DATE_MARKER →
  find_text_coordinates page marker = inr (c, has_date) → has_date = false.
Proof.
  intros Hm H. destruct (extract_text page) as [e|[text|]] eqn:Ht.
  - rewrite find_text_coordinates_degraded in H by eauto. congruence.
  - rewrite (find_text_coordinates_text _ _ _ Ht) in H. injection H as H.
    rewrite <- (scan_lines_no_date (page_lines text) marker 0
                  (page_lines text) Hm).
    by rewrite H.
  - rewrite find_text_coordinates_degraded in H by eauto. congruence.
Qed.

(** C2.  The locator looks for the marker in each line of the page text, in
    order and up to case ([page_lines]: an empty text has no line).  When no
    line contains it the result is [(None, False)]; when the first line
    containing it has index [i] the coordinate is
    [(100, 792 - (i + 1) * 20)].  A line with ["SIGNATURE:"] passes the test
    of line 109 for the marker ["Signature:"]. *)
Theorem locator_first_match (page : Page) (text marker : str) :
  extract_text page = inr (Some text) →
  ((∀ l, l ∈ page_lines text → ¬ contains_caseless marker l) →
   find_text_coordinates page marker = inr (None, false))
  ∧ (∀ i line,
       first_match marker (page_lines text) i line →
       ∃ has_date,
         find_text_coordinates page marker =
           inr (Some (100, 792 - (Z.of_nat i + 1) * 20), has_date))
  ∧ (∀ pre post,
       contains (lower SIGNATURE_MARKER)
         (lower (pre ++ py "SIGNATURE:" ++ post)) = true).
Proof.
  intros Ht. rewrite (find_text_coordinates_text _ _ _ Ht). split_and!.
  - intros Hno. f_equal. by apply scan_lines_none.
  - intros i line Hfirst. eexists. f_equal.
    by rewrite (scan_lines_first _ _ 0 _ i line Hfirst).
  - intros pre post. apply contains_lower_iff.
    by exists pre, (py "SIGNATURE:"), post.
Qed.


(** C7.  The locator always returns.  When the extraction raises, or the
    extracted text is [None] or empty, it returns [(None, False)], and the
    composer then draws at the default coordinates of the page. *)
Theorem locator_never_raises (page : Page) (marker : str) :
  (∃ r, find_text_coordinates page marker = inr r)
  ∧ ((∃ e, extract_text page = inl e) ∨ extract_text page = inr None
     ∨ extract_text page = inr (Some []) →
     find_text_coordinates page marker = inr (None, false)
     ∧ (∀ sig blank date,
          compose_pages [page] sig blank date =
            inr [merge_page page
                   [DrawImage sig (250 + 80) (293 - 10) 120 30;
                    DrawImage blank (260 + 80) (259 - 10) 80 10;
                    DrawString (260 + 80) (259 - 10 + 5) date
                      (py "Helvetica") 9]])
     ∧ (∀ p0 rest sig blank date,
          ∃ ov0,
            compose_pages (p0 :: page :: rest) sig blank date =
              inr (merge_page p0 ov0
                   :: merge_page page
                        [DrawImage sig (230 + 80) (162 - 10) 160 20]
                   :: take 17 rest))).
Proof.
  split; [apply find_text_coordinates_total|].
  intros Hbad. split_and!.
  - by apply find_text_coordinates_degraded.
  - intros sig blank date.
    by rewrite (compose_pages_one page sig blank date None false None false)
      by by apply find_text_coordinates_degraded.
  - intros p0 rest sig blank date.
    destruct (find_text_coordinates_total p0 SIGNATURE_MARKER) as [[sc hs] Hs].
    destruct (find_text_coordinates_total p0 DATE_MARKER) as [[dc hd] Hd].
    eexists.
    by rewrite (compose_pages_more p0 page rest sig blank date
                  sc hs dc hd None false Hs Hd)
      by by apply find_text_coordinates_degraded.
Qed.

(** C10.  When the first matching line has index [i >= 39] the coordinate
    the locator returns has [y = 792 - (i + 1) * 20 <= -8]: nothing clamps
    it, and for the signature marker the composer draws the image of page 1
    at [y - 10], below the bottom of the page. *)
Theorem locator_y_below_page (page : Page) (text marker : str) (i : nat)
    (line : str) :
  extract_text page = inr (Some text) →
  first_match marker (page_lines text) i line →
  (39 ≤ i)%nat →
  ∃ y has_date,
    find_text_coordinates page marker = inr (Some (100, y), has_date)
    ∧ y = 792 - (Z.of_nat i + 1) * 20
    ∧ y ≤ -8
    ∧ (marker = SIGNATURE_MARKER →
       ∀ sig blank date,
         ∃ ops,
           compose_pages [page] sig blank date =
             inr [merge_page page (DrawImage sig 180 (y - 10) 120 30 :: ops)]
           ∧ y - 10 < 0).
Proof.
  intros Ht Hfirst Hi. rewrite (find_text_coordinates_text _ _ _ Ht).
  rewrite (scan_lines_first _ _ 0 _ i line Hfirst). simpl.
  eexists _, _. split_and!; [done..|lia|].
  intros -> sig blank date.
  destruct (find_text_coordinates_total page DATE_MARKER) as [[dc hd] Hd].
  eexists. split; [|lia].
  rewrite (compose_pages_one page sig blank date _ _ dc hd
             (eq_trans (find_text_coordinates_text _ _ _ Ht)
                (f_equal inr (scan_lines_first _ _ 0 _ i line Hfirst))) Hd).
  done.
Qed.

Lemma locator_first_match_witness :
  find_text_coordinates (text_page (py "no marker here")) SIGNATURE_MARKER
    = inr (None, false)
  ∧ ∃ has_date,
      find_text_coordinates (text_page two_lines) SIGNATURE_MARKER
        = inr (Some (100, 752), has_date).
Proof.
  split.
  - apply (locator_first_match (text_page (py "no marker here"))
             (py "no marker here") SIGNATURE_MARKER eq_refl).
    intros l Hl. apply list_elem_of_singleton in Hl. subst l.
    apply not_contains_lower. reflexivity.
  - apply (proj1 (proj2 (locator_first_match (text_page two_lines) two_lines
                           SIGNATURE_MARKER eq_refl))
             1%nat (py "xx SIGNATURE: yy")).
    split_and!.
    + reflexivity.
    + apply contains_lower_iff. reflexivity.
    + intros j l Hj Hl. destruct j as [|j]; [|lia].
      injection Hl as <-. apply not_contains_lower. reflexivity.
Defined.


Lemma locator_never_raises_witness :
  find_text_coordinates failing_page DATE_MARKER = inr (None, false)
  ∧ (∀ sig blank date,
       compose_pages [failing_page] sig blank date =
         inr [merge_page failing_page
                [DrawImage sig 330 283 120 30;
                 DrawImage blank 340 249 80 10;
                 DrawString 340 254 date (py "Helvetica") 9]])
  ∧ (∀ p0 rest sig blank date,
       ∃ ov0,
         compose_pages (p0 :: failing_page :: rest) sig blank date =
           inr (merge_page p0 ov0
                :: merge_page failing_page [DrawImage sig 310 152 160 20]
                :: take 17 rest)).
Proof.
  apply (proj2 (locator_never_raises failing_page DATE_MARKER)).
  left. exists (OtherError (py "boom")). reflexivity.
Defined.

Lemma low_marker_lines :
  page_lines low_marker_text = replicate 39 [] ++ [SIGNATURE_MARKER].
Proof. reflexivity. Qed.

Lemma locator_y_below_page_witness :
  ∃ y has_date,
    find_text_coordinates (text_page low_marker_text) SIGNATURE_MARKER
      = inr (Some (100, y), has_date)
    ∧ y = -8
    ∧ y ≤ -8
    ∧ (SIGNATURE_MARKER = SIGNATURE_MARKER →
       ∀ sig blank date,
         ∃ ops,
           compose_pages [text_page low_marker_text] sig blank date =
             inr [merge_page (text_page low_marker_text)
                    (DrawImage sig 180 (y - 10) 120 30 :: ops)]
           ∧ y - 10 < 0).
Proof.
  apply (locator_y_below_page (text_page low_marker_text) low_marker_text
           SIGNATURE_MARKER 39 SIGNATURE_MARKER eq_refl); [|lia].
  rewrite low_marker_lines. split_and!.
  - reflexivity.
  - apply contains_lower_iff. reflexivity.
  - intros j l Hj Hl. rewrite lookup_app_l in Hl
      by (rewrite length_replicate; lia).
    apply lookup_replicate in Hl as [-> _].
    apply not_contains_lower. reflexivity.
Defined.

(** ** The overlay composer: claims *)



(** C4.  On page 1, after the signature image: when the date lookup reports a
    date already present nothing else is drawn; otherwise the blank filler is
    drawn 80 x 10 at the adjusted date coordinate [(x, y)] and the date text
    at [(x, y + 5)] in Helvetica 9. *)
Theorem page1_date_draws (p0 : Page) (rest : list Page)
    (sig blank date : str) (dc : option coord) (has_date : bool) :
  find_text_coordinates p0 DATE_MARKER = inr (dc, has_date) →
  ∃ sx sy tail ov,
    compose_pages (p0 :: rest) sig blank date = inr (merge_page p0 ov :: tail)
    ∧ (has_date = true → ov = [DrawImage sig sx sy 120 30])
    ∧ (has_date = false →
       let x := (or_default dc default_date_coords).1 + 80 in
       let y := (or_default dc default_date_coords).2 - 10 in
       ov = [DrawImage sig sx sy 120 30;
             DrawImage blank x y 80 10;
             DrawString x (y + 5) date (py "Helvetica") 9]).
Proof.
  intros Hd.
  destruct (find_text_coordinates_total p0 SIGNATURE_MARKER) as [[sc hs] Hs].
  destruct rest as [|p1 rest].
  - eexists _, _, _, _. split;
      [by apply (compose_pages_one _ _ _ _ sc hs dc has_date)|].
    split; intros ->; done.
  - destruct (find_text_coordinates_total p1 SIGNATURE_MARKER)
      as [[sc1 hs1] Hs1].
    eexists _, _, _, _. split;
      [by apply (compose_pages_more _ _ _ _ _ _ sc hs dc has_date sc1 hs1)|].
    split; intros ->; done.
Qed.

(** C5.  On page 1 the signature coordinate is the located one, or
    [(250, 293)] when the marker is absent, and the date coordinate is the
    located one, or [(260, 259)]; both are moved by [(+80, -10)] before
    drawing, and the signature image is drawn 120 x 30. *)
Theorem page1_coordinates (p0 : Page) (rest : list Page)
    (sig blank date : str) (sc dc : option coord) (hs hd : bool) :
  find_text_coordinates p0 SIGNATURE_MARKER = inr (sc, hs) →
  find_text_coordinates p0 DATE_MARKER = inr (dc, hd) →
  let s := match sc with Some c => c | None => (250, 293) end in
  let d := match dc with Some c => c | None => (260, 259) end in
  ∃ tail,
    compose_pages (p0 :: rest) sig blank date =
      inr (merge_page p0
             (DrawImage sig (s.1 + 80) (s.2 - 10) 120 30
              :: (if hd then []
                  else [DrawImage blank (d.1 + 80) (d.2 - 10) 80 10;
                        DrawString (d.1 + 80) (d.2 - 10 + 5) date
                          (py "Helvetica") 9]))
           :: tail).
Proof.
  intros Hs Hd s d. destruct rest as [|p1 rest].
  - eexists. by rewrite (compose_pages_one _ _ _ _ sc hs dc hd).
  - destruct (find_text_coordinates_total p1 SIGNATURE_MARKER)
      as [[sc1 hs1] Hs1].
    eexists.
    by rewrite (compose_pages_more _ _ _ _ _ _ sc hs dc hd sc1 hs1).
Qed.

(** C6.  With two pages or more, page 2 gets one overlay holding only the
    signature image, 160 x 20, at the located coordinate or [(230, 162)],
    moved by [(+80, -10)]; the lookup on page 2 never runs the date check.
    With one page only page 1 is composed, and with none nothing is. *)
Theorem page2_composition (pages : list Page) (sig blank date : str) :
  ((2 ≤ length pages)%nat →
   ∃ p0' p1 sc1,
     pages !! 1%nat = Some p1
     ∧ find_text_coordinates p1 SIGNATURE_MARKER = inr (sc1, false)
     ∧ let s := match sc1 with Some c => c | None => (230, 162) end in
       compose_pages pages sig blank date =
         inr (p0'
              :: merge_page p1 [DrawImage sig (s.1 + 80) (s.2 - 10) 160 20]
              :: drop 2 (take 19 pages)))
  ∧ (length pages = 1%nat →
     ∃ p0 ov0,
       pages = [p0]
       ∧ compose_pages pages sig blank date = inr [merge_page p0 ov0])
  ∧ (length pages = 0%nat →
     compose_pages pages sig blank date = inl IndexError).
Proof.
  split_and!.
  - intros Hlen. destruct pages as [|p0 [|p1 rest]]; [simpl in Hlen; lia..|].
    destruct (find_text_coordinates_total p0 SIGNATURE_MARKER) as [[sc hs] Hs].
    destruct (find_text_coordinates_total p0 DATE_MARKER) as [[dc hd] Hd].
    destruct (find_text_coordinates_total p1 SIGNATURE_MARKER)
      as [[sc1 hs1] Hs1].
    assert (hs1 = false) as ->
      by exact (find_text_coordinates_no_date _ _ _ _
                  signature_marker_not_date Hs1).
    eexists _, p1, sc1. split_and!; [done..|].
    by rewrite (compose_pages_more _ _ _ _ _ _ sc hs dc hd sc1 false).
  - intros Hlen. destruct pages as [|p0 [|p1 rest]]; [done| |done].
    destruct (find_text_coordinates_total p0 SIGNATURE_MARKER) as [[sc hs] Hs].
    destruct (find_text_coordinates_total p0 DATE_MARKER) as [[dc hd] Hd].
    eexists p0, _. split; [done|].
    by apply (compose_pages_one _ _ _ _ sc hs dc hd).
  - intros Hlen. by destruct pages.
Qed.

(** ** The run: claims *)

Section RunClaims.

Variable soffice_run : list str → gmap str data → CompletedProcess * gmap str data.
Variables today_date temp_dir : str.

Lemma main_conversion_fails w k x s b :
  default ∅ (actor_input w) !! py "xlsx_key" = Some k →
  k ≠ [] →
  kv_store w !! k = Some x →
  kv_store w !! signature_key_of w = Some s →
  kv_store w !! blank_image_key_of w = Some b →
  falsy (Some x) = false → falsy (Some s) = false →
  falsy (Some b) = false →
  let xlsx_path := os_path_join temp_dir (py "input.xlsx") in
  let cmd := soffice_cmd xlsx_path temp_dir in
  let w1 := staged temp_dir x s b w in
  conversion_failed soffice_run xlsx_path temp_dir w1 →
  main soffice_run today_date temp_dir w =
    (inl (FileNotFoundError
            (py "Conversion failed: "
             ++ stderr (converter_result soffice_run cmd w1))),
     cleanup temp_dir (after_converter soffice_run cmd w1)).
Proof.
  intros Hk Hne Hx Hs Hb Fx Fs Fb xlsx_path cmd w1 Hfail.
  rewrite (main_staged soffice_run today_date temp_dir w k x s b)
    by done.
  unfold with_TemporaryDirectory. cbn zeta.
  unfold mbind at 1, M_bind at 1.
  rewrite convert_xlsx_to_pdf_unfold.
  apply conversion_failed_iff in Hfail. cbn zeta in Hfail.
  subst xlsx_path cmd w1. by rewrite Hfail.
Qed.

(** C8.  Without a spreadsheet key the run raises the [ValueError] of line
    42, and with a key but one of the three blobs missing from the store it
    raises the [FileNotFoundError] of line 51.  Either way the world is
    the one the run started in: no file written, no converter run, no blob
    stored. *)
Theorem missing_input_aborts (w : World) :
  (default ∅ (actor_input w) !! py "xlsx_key" = None →
   main soffice_run today_date temp_dir w =
     (inl (ValueError (py "No XLSX file key provided in input")), w))
  ∧ (∀ k,
       default ∅ (actor_input w) !! py "xlsx_key" = Some k →
       k ≠ [] →
       kv_store w !! k = None ∨ kv_store w !! signature_key_of w = None
       ∨ kv_store w !! blank_image_key_of w = None →
       main soffice_run today_date temp_dir w =
         (inl (FileNotFoundError
                 (py "One or more input files not found in key-value store")),
          w)).
Proof.
  split.
  - apply main_no_key.
  - intros k. apply main_missing_blob.
Qed.

(** C9.  The conversion step raises exactly when the converter exits with
    a non-zero status or leaves no output file, and the error then carries
    the converter's standard error.  In a run whose inputs are all there,
    such a failure is the result of the run, and the store is left as it
    was: the only effects are the three input files and the converter
    run. *)
Theorem conversion_failure_aborts :
  (∀ xlsx_path out_dir w,
     ((∃ e, (convert_xlsx_to_pdf soffice_run xlsx_path out_dir w).1 = inl e)
      ↔ conversion_failed soffice_run xlsx_path out_dir w)
     ∧ (conversion_failed soffice_run xlsx_path out_dir w →
        (convert_xlsx_to_pdf soffice_run xlsx_path out_dir w).1 =
          inl (FileNotFoundError
                 (py "Conversion failed: "
                  ++ stderr (converter_result soffice_run
                               (soffice_cmd xlsx_path out_dir) w)))))
  ∧ (∀ w k x s b,
       default ∅ (actor_input w) !! py "xlsx_key" = Some k →
       k ≠ [] →
       kv_store w !! k = Some x →
       kv_store w !! signature_key_of w = Some s →
       kv_store w !! blank_image_key_of w = Some b →
       falsy (Some x) = false → falsy (Some s) = false →
       falsy (Some b) = false →
       let xlsx_path := os_path_join temp_dir (py "input.xlsx") in
       let cmd := soffice_cmd xlsx_path temp_dir in
       let w1 := staged temp_dir x s b w in
       conversion_failed soffice_run xlsx_path temp_dir w1 →
       ∃ w',
         main soffice_run today_date temp_dir w =
           (inl (FileNotFoundError
                   (py "Conversion failed: "
                    ++ stderr (converter_result soffice_run cmd w1))), w')
         ∧ kv_store w' = kv_store w
         ∧ effects w' =
             effects w
             ++ [FileWritten xlsx_path;
                 FileWritten (os_path_join temp_dir (py "signature.png"));
                 FileWritten (os_path_join temp_dir (py "line.png"));
                 ConverterRun cmd]).
Proof.
  split.
  - intros xlsx_path out_dir w.
    rewrite convert_xlsx_to_pdf_unfold. cbn zeta.
    rewrite <- conversion_failed_iff. cbn zeta.
    destruct (_ && _); simpl.
    + split; [|done]. split; [by intros [e ?]|done].
    + split; [|done]. split; [done|]. eauto.
  - intros w k x s b Hk Hne Hx Hs Hb Fx Fs Fb xlsx_path cmd w1 Hfail.
    eexists. split; [by apply (main_conversion_fails w k x s b)|].
    split; [done|]. simpl. by rewrite <- !app_assoc.
Qed.

End RunClaims.



Lemma page1_date_draws_witness :
  (∃ sx sy tail,
     compose_pages [text_page dated_text] (py "sig.png") (py "line.png")
       (py "01/02/2024") =
       inr (merge_page (text_page dated_text)
              [DrawImage (py "sig.png") sx sy 120 30] :: tail))
  ∧ (∃ sx sy tail,
       compose_pages [text_page (py "Date:")] (py "sig.png") (py "line.png")
         (py "01/02/2024") =
         inr (merge_page (text_page (py "Date:"))
                [DrawImage (py "sig.png") sx sy 120 30;
                 DrawImage (py "line.png") 180 762 80 10;
                 DrawString 180 767 (py "01/02/2024") (py "Helvetica") 9]
              :: tail)).
Proof.
  split.
  - destruct (page1_date_draws (text_page dated_text) [] (py "sig.png")
                (py "line.png") (py "01/02/2024") (Some (100, 772)) true
                eq_refl) as (sx & sy & tail & ov & Hc & Ht & _).
    rewrite (Ht eq_refl) in Hc. exists sx, sy, tail. exact Hc.
  - destruct (page1_date_draws (text_page (py "Date:")) [] (py "sig.png")
                (py "line.png") (py "01/02/2024") (Some (100, 772)) false
                eq_refl) as (sx & sy & tail & ov & Hc & _ & Hf).
    rewrite (Hf eq_refl) in Hc. exists sx, sy, tail. exact Hc.
Defined.

Lemma page1_coordinates_witness :
  (∃ tail,
     compose_pages [text_page (py "nothing")] (py "sig.png") (py "line.png")
       (py "01/02/2024") =
       inr (merge_page (text_page (py "nothing"))
              [DrawImage (py "sig.png") 330 283 120 30;
               DrawImage (py "line.png") 340 249 80 10;
               DrawString 340 254 (py "01/02/2024") (py "Helvetica") 9]
            :: tail))
  ∧ (∃ tail,
       compose_pages [text_page two_lines] (py "sig.png") (py "line.png")
         (py "01/02/2024") =
         inr (merge_page (text_page two_lines)
                [DrawImage (py "sig.png") 180 742 120 30;
                 DrawImage (py "line.png") 340 249 80 10;
                 DrawString 340 254 (py "01/02/2024") (py "Helvetica") 9]
              :: tail)).
Proof.
  split.
  - exact (page1_coordinates (text_page (py "nothing")) [] (py "sig.png")
             (py "line.png") (py "01/02/2024") None None false false
             eq_refl eq_refl).
  - exact (page1_coordinates (text_page two_lines) [] (py "sig.png")
             (py "line.png") (py "01/02/2024") (Some (100, 752)) None
             false false eq_refl eq_refl).
Defined.

Lemma page2_composition_witness :
  (∃ p0' p1 sc1,
     document 3 !! 1%nat = Some p1
     ∧ find_text_coordinates p1 SIGNATURE_MARKER = inr (sc1, false)
     ∧ let s := match sc1 with Some c => c | None => (230, 162) end in
       compose_pages (document 3) (py "sig.png") (py "line.png")
         (py "01/02/2024") =
         inr (p0'
              :: merge_page p1
                   [DrawImage (py "sig.png") (s.1 + 80) (s.2 - 10) 160 20]
              :: drop 2 (take 19 (document 3))))
  ∧ (∃ p0 ov0,
       document 1 = [p0]
       ∧ compose_pages (document 1) (py "sig.png") (py "line.png")
           (py "01/02/2024") = inr [merge_page p0 ov0])
  ∧ compose_pages (document 0) (py "sig.png") (py "line.png")
      (py "01/02/2024") = inl IndexError.
Proof.
  split_and!.
  - apply (proj1 (page2_composition (document 3) (py "sig.png")
                    (py "line.png") (py "01/02/2024"))).
    simpl. lia.
  - apply (proj1 (proj2 (page2_composition (document 1) (py "sig.png")
                           (py "line.png") (py "01/02/2024")))).
    reflexivity.
  - apply (proj2 (proj2 (page2_composition (document 0) (py "sig.png")
                           (py "line.png") (py "01/02/2024")))).
    reflexivity.
Defined.

Lemma missing_input_aborts_witness :
  main (good_soffice 3) (py "01/02/2024") (py "/tmp/t") keyless_world =
    (inl (ValueError (py "No XLSX file key provided in input")),
     keyless_world)
  ∧ main (good_soffice 3) (py "01/02/2024") (py "/tmp/t") blobless_world =
      (inl (FileNotFoundError
              (py "One or more input files not found in key-value store")),
       blobless_world).
Proof.
  split.
  - apply (proj1 (missing_input_aborts (good_soffice 3) (py "01/02/2024")
                    (py "/tmp/t") keyless_world)).
    reflexivity.
  - apply (proj2 (missing_input_aborts (good_soffice 3) (py "01/02/2024")
                    (py "/tmp/t") blobless_world) (py "book")).
    + reflexivity.
    + discriminate.
    + right. left. reflexivity.
Defined.

Lemma conversion_failure_aborts_witness :
  (convert_xlsx_to_pdf bad_soffice (py "/tmp/t/input.xlsx") (py "/tmp/t")
     demo_world).1 = inl (FileNotFoundError (py "Conversion failed: boom"))
  ∧ ∃ w',
      main bad_soffice (py "01/02/2024") (py "/tmp/t") demo_world =
        (inl (FileNotFoundError (py "Conversion failed: boom")), w')
      ∧ kv_store w' = demo_kv
      ∧ effects w' =
          [FileWritten (py "/tmp/t/input.xlsx");
           FileWritten (py "/tmp/t/signature.png");
           FileWritten (py "/tmp/t/line.png");
           ConverterRun (soffice_cmd (py "/tmp/t/input.xlsx") (py "/tmp/t"))].
Proof.
  split.
  - apply (proj2 (proj1 (conversion_failure_aborts bad_soffice
                           (py "01/02/2024") (py "/tmp/t"))
                    (py "/tmp/t/input.xlsx") (py "/tmp/t") demo_world)).
    left. discriminate.
  - apply (proj2 (conversion_failure_aborts bad_soffice (py "01/02/2024")
                    (py "/tmp/t"))
             demo_world (py "book") (Bytes (py "xlsx")) (Bytes (py "sig"))
             (Bytes (py "line"))); try reflexivity.
    + discriminate.
    + left. discriminate.
Defined.

(** A run on a spreadsheet the converter turns into 20 pages: it succeeds,
    stores 19 pages under [signed_book.pdf], and leaves nothing in the
    temporary directory. *)
Example run_twenty_pages :
  let '(r, w') :=
    main (good_soffice 20) (py "01/02/2024") (py "/tmp/t") demo_world in
  r = inr ()
  ∧ (∃ out, kv_store w' !! py "signed_book.pdf" = Some (Pdf out)
            ∧ length out = 19%nat)
  ∧ files w' = ∅
  ∧ last (effects w') = Some (DataPushed (py "success") (py "signed_book.pdf")).
Proof.
  vm_compute. split_and!; [done| |done..]. eexists. split; reflexivity.
Qed.

(** * Further properties of the code *)

(** ** The marker locator *)

Lemma first_match_dec marker lines :
  (∃ k line, first_match marker lines k line)
  ∨ (∀ l, l ∈ lines → ¬ contains_caseless marker l).
Proof.
  induction lines as [|l lines IH].
  - right. intros l Hl. by apply elem_of_nil in Hl.
  - destruct (contains (lower marker) (lower l)) eqn:Hc.
    + left. exists 0%nat, l. split_and!; [done|by apply contains_lower_iff|].
      intros j l' Hj. lia.
    + apply not_contains_lower in Hc. destruct IH as [(k & line & Hk & Hm & Hf)|Hno].
      * left. exists (S k), line. split_and!; [done..|].
        intros [|j] l' Hj Hl'; [by simplify_eq/=|].
        apply (Hf j); [lia|done].
      * right. intros l' Hl'. apply elem_of_cons in Hl' as [->|Hl']; auto.
Qed.

Lemma first_match_elem marker lines k line :
  first_match marker lines k line →
  line ∈ lines ∧ contains_caseless marker line ∧ (k < length lines)%nat.
Proof.
  intros (Hk & Hm & _). split_and!; [|done|].
  - by apply list_elem_of_lookup_2 in Hk.
  - by apply lookup_lt_Some in Hk.
Qed.

Lemma split_nl_length s : length (split_nl s) = S (line_feeds s).
Proof.
  unfold line_feeds. induction s as [|c s IH]; [done|]. simpl.
  rewrite filter_cons. unfold nl in *. case_decide as Hc.
  - simpl. by rewrite IH.
  - destruct (split_nl s) as [|l ls]; [done|]. by rewrite <- IH.
Qed.

Lemma page_lines_length text :
  (length (page_lines text) ≤ S (line_feeds text))%nat.
Proof.
  destruct text as [|a t]; [simpl; lia|].
  change (page_lines (a :: t)) with (split_nl (a :: t)).
  by rewrite split_nl_length.
Qed.

(** The outcome of the locator on a page with text, by cases. *)
Lemma find_text_coordinates_cases page text marker :
  extract_text page = inr (Some text) →
  (∃ k line,
     first_match marker (page_lines text) k line
     ∧ find_text_coordinates page marker =
         inr (Some (100, 792 - (Z.of_nat k + 1) * 20),
              has_date_at (page_lines text) marker k line))
  ∨ ((∀ l, l ∈ page_lines text → ¬ contains_caseless marker l)
     ∧ find_text_coordinates page marker = inr (None, false)).
Proof.
  intros Ht. rewrite (find_text_coordinates_text _ _ _ Ht).
  destruct (first_match_dec marker (page_lines text))
    as [(k & line & Hfirst)|Hno].
  - left. exists k, line. split; [done|].
    by rewrite (scan_lines_first _ _ 0 _ k line Hfirst).
  - right. split; [done|]. by rewrite scan_lines_none.
Qed.

(** The locator finds a coordinate exactly when some line of the text
    contains the marker up to case. *)
Theorem locator_finds_iff (page : Page) (text marker : str) :
  extract_text page = inr (Some text) →
  (∃ c has_date, find_text_coordinates page marker = inr (Some c, has_date))
  ↔ ∃ l, l ∈ page_lines text ∧ contains_caseless marker l.
Proof.
  intros Ht.
  destruct (find_text_coordinates_cases page text marker Ht)
    as [(k & line & Hfirst & ->)|[Hno ->]].
  - split; [|eauto]. intros _. exists line.
    by destruct (first_match_elem _ _ _ _ Hfirst) as (? & ? & _).
  - split.
    + by intros (c & h & [=]).
    + intros (l & Hl & Hm). by destruct (Hno l Hl).
Qed.

(** Every coordinate the locator returns has [x = 100] and
    [y = 792 - 20 * k] for a line number [k] between 1 and the number of
    lines of the text, which is one more than its number of line feeds; so
    [y] is at most 772 and not lower than the line count allows. *)
Theorem locator_coordinate_range (page : Page) (marker : str) (x y : Z)
    (has_date : bool) :
  find_text_coordinates page marker = inr (Some (x, y), has_date) →
  x = 100
  ∧ ∃ text k,
      extract_text page = inr (Some text)
      ∧ (1 ≤ k ≤ S (line_feeds text))%nat
      ∧ y = 792 - 20 * Z.of_nat k
      ∧ 792 - 20 * Z.of_nat (S (line_feeds text)) ≤ y ≤ 772.
Proof.
  intros Hr. destruct (extract_text page) as [e|[text|]] eqn:Ht.
  - rewrite find_text_coordinates_degraded in Hr by eauto. done.
  - destruct (find_text_coordinates_cases page text marker Ht)
      as [(k & line & Hfirst & Hr')|[_ Hr']];
      rewrite Hr' in Hr; [|done].
    injection Hr as <- <- _. split; [done|].
    destruct (first_match_elem _ _ _ _ Hfirst) as (_ & _ & Hk).
    pose proof (page_lines_length text).
    exists text, (S k). split_and!; [done|lia..].
  - rewrite find_text_coordinates_degraded in Hr by eauto. done.
Qed.

Lemma scan_lines_marker_case lines m1 m2 i rest :
  lower m1 = lower m2 →
  (scan_lines lines m1 i rest).1 = (scan_lines lines m2 i rest).1.
Proof.
  intros Hm. revert i. induction rest as [|l rest IH]; intros i; simpl.
  - done.
  - rewrite Hm. by destruct (contains _ _).
Qed.

(** The coordinate depends on the marker only up to case: two markers with
    the same lower-case form are located at the same place. *)
Theorem locator_marker_case (page : Page) (m1 m2 : str) :
  lower m1 = lower m2 →
  ∃ c h1 h2,
    find_text_coordinates page m1 = inr (c, h1)
    ∧ find_text_coordinates page m2 = inr (c, h2).
Proof.
  intros Hm. destruct (extract_text page) as [e|[text|]] eqn:Ht.
  - exists None, false, false.
    by rewrite !find_text_coordinates_degraded by eauto.
  - rewrite !(find_text_coordinates_text _ _ _ Ht).
    pose proof (scan_lines_marker_case (page_lines text) m1 m2 0
                  (page_lines text) Hm) as Heq.
    destruct (scan_lines _ m1 _ _) as [c1 h1], (scan_lines _ m2 _ _) as [c2 h2].
    simpl in Heq. subst c2. by exists c1, h1, h2.
  - exists None, false, false.
    by rewrite !find_text_coordinates_degraded by eauto.
Qed.

(** The date flag is raised only for the marker spelled exactly ["Date:"],
    and only together with a coordinate. *)
Theorem date_flag_needs_exact_marker (page : Page) (marker : str)
    (c : option coord) :
  find_text_coordinates page marker = inr (c, true) →
  marker = DATE_MARKER ∧ is_Some c.
Proof.
  intros Hr. split.
  - destruct (decide (marker = DATE_MARKER)) as [|Hne]; [done|].
    by pose proof (find_text_coordinates_no_date _ _ _ _ Hne Hr).
  - destruct (extract_text page) as [e|[text|]] eqn:Ht.
    + rewrite find_text_coordinates_degraded in Hr by eauto. done.
    + destruct (find_text_coordinates_cases page text marker Ht)
        as [(k & line & _ & Hr')|[_ Hr']];
        rewrite Hr' in Hr; [|done].
      injection Hr as <- _. eauto.
    + rewrite find_text_coordinates_degraded in Hr by eauto. done.
Qed.

(** The [strip()] calls of lines 114-115 never change the outcome of the
    date search. *)
Theorem strip_keeps_date_search (s : str) :
  re_search DATE_PATTERN (strip s) = re_search DATE_PATTERN s.
Proof.
  pose proof (re_search_date_spec (strip s)) as H1.
  pose proof (re_search_date_spec s) as H2.
  pose proof (contains_date_strip s) as H3.
  destruct (re_search DATE_PATTERN (strip s)), (re_search DATE_PATTERN s);
    intuition congruence.
Qed.


Lemma split_nl_nonempty s : split_nl s ≠ [].
Proof.
  intros H. pose proof (split_nl_length s) as Hl. rewrite H in Hl. done.
Qed.

(** Splitting at line feeds loses nothing: joining the lines with line feeds
    gives the text back, there is one line more than there are line feeds,
    and no line contains a line feed. *)
Theorem split_nl_round_trip (s : str) :
  join_nl (split_nl s) = s
  ∧ length (split_nl s) = S (line_feeds s)
  ∧ Forall (λ l, nl ∉ l) (split_nl s).
Proof.
  split_and!; [| apply split_nl_length |].
  - induction s as [|c s IH]; [done|]. simpl. case_decide as Hc.
    + subst c. pose proof (split_nl_nonempty s).
      destruct (split_nl s) as [|l ls]; [done|]. simpl in *.
      by rewrite IH.
    + pose proof (split_nl_nonempty s).
      destruct (split_nl s) as [|l ls]; [done|].
      destruct ls; simpl in *; by rewrite <- IH.
  - induction s as [|c s IH]; simpl.
    + constructor; [|done]. by intros ?%elem_of_nil.
    + case_decide as Hc.
      * constructor; [|done]. by intros ?%elem_of_nil.
      * pose proof (split_nl_nonempty s).
        destruct (split_nl s) as [|l ls]; [done|].
        inversion IH; subst. constructor; [|done].
        intros [?|?]%elem_of_cons; [|done]. by subst c.
Qed.

(** ** The overlay composer *)

(** Pages after the nineteenth have no influence on the output. *)
Theorem compose_ignores_pages_after_cap (pages : list Page)
    (sig blank date : str) :
  compose_pages (take 19 pages) sig blank date
  = compose_pages pages sig blank date.
Proof.
  destruct pages as [|p0 [|p1 rest]]; [done..|].
  destruct (find_text_coordinates_total p0 SIGNATURE_MARKER) as [[sc hs] Hs].
  destruct (find_text_coordinates_total p0 DATE_MARKER) as [[dc hd] Hd].
  destruct (find_text_coordinates_total p1 SIGNATURE_MARKER) as [[sc1 hs1] Hs1].
  change (take 19 (p0 :: p1 :: rest)) with (p0 :: p1 :: take 17 rest).
  rewrite !(compose_pages_more _ _ _ _ _ _ sc hs dc hd sc1 hs1) by done.
  by rewrite take_take.
Qed.





(** The output file is written last: whenever the composer ends with an
    error it has changed nothing.  A missing input file, a file that is not
    a PDF and a PDF without pages are such errors. *)
Theorem add_signature_and_date_fails_clean (w : World)
    (input_pdf sig blank output_pdf date : str) :
  (∀ e,
     (add_signature_and_date input_pdf sig blank output_pdf date w).1 = inl e →
     (add_signature_and_date input_pdf sig blank output_pdf date w).2 = w)
  ∧ (files w !! input_pdf = None →
     ∃ msg,
       add_signature_and_date input_pdf sig blank output_pdf date w
       = (inl (FileNotFoundError msg), w))
  ∧ (∀ b,
       files w !! input_pdf = Some (Bytes b) →
       add_signature_and_date input_pdf sig blank output_pdf date w
       = (inl PdfReadError, w))
  ∧ (files w !! input_pdf = Some (Pdf []) →
     add_signature_and_date input_pdf sig blank output_pdf date w
     = (inl IndexError, w)).
Proof.
  unfold add_signature_and_date, PdfReader, read_file, lift, mbind, M_bind.
  split_and!.
  - intros e. destruct (files w !! input_pdf) as [[b|pages]|]; cbn; [done| |done].
    by destruct (compose_pages pages sig blank date).
  - intros ->. by eexists.
  - by intros b ->.
  - by intros ->.
Qed.

(** A successful composition writes the output file and nothing else: the
    store, the run input and every other file are as before, and the only
    effect logged is that one file write. *)
Theorem add_signature_and_date_frame (w : World)
    (input_pdf sig blank output_pdf date : str) :
  (add_signature_and_date input_pdf sig blank output_pdf date w).1 = inr () →
  let w' := (add_signature_and_date input_pdf sig blank output_pdf date w).2 in
  kv_store w' = kv_store w
  ∧ actor_input w' = actor_input w
  ∧ effects w' = effects w ++ [FileWritten output_pdf]
  ∧ (∀ path, path ≠ output_pdf → files w' !! path = files w !! path)
  ∧ ∃ pages out,
      files w !! input_pdf = Some (Pdf pages)
      ∧ compose_pages pages sig blank date = inr out
      ∧ files w' !! output_pdf = Some (Pdf out).
Proof.
  unfold add_signature_and_date, PdfReader, read_file, lift, mbind, M_bind.
  destruct (files w !! input_pdf) as [[b|pages]|] eqn:Hin; cbn; [done| |done].
  destruct (compose_pages pages sig blank date) as [e|out] eqn:Hout; [done|].
  intros _. cbn. split_and!; [done..| |].
  - intros path Hne. by rewrite lookup_insert_ne.
  - exists pages, out. split_and!; [done..|]. by rewrite lookup_insert_eq.
Qed.

(** ** Paths *)

Lemma rfind_from_absent c i s : c ∉ s → rfind_from c i s = -1.
Proof.
  revert i. induction s as [|a s IH]; intros i Hc; simpl; [done|].
  apply not_elem_of_cons in Hc as [Hne Hc]. rewrite (IH _ Hc). simpl.
  by rewrite decide_False.
Qed.

Lemma rfind_from_last c i a b :
  0 ≤ i → c ∉ b → rfind_from c i (a ++ c :: b) = i + Z.of_nat (length a).
Proof.
  revert i. induction a as [|x a IH]; intros i Hi Hc; simpl.
  - rewrite (rfind_from_absent _ _ _ Hc). simpl.
    rewrite decide_True by done. lia.
  - rewrite IH by (done || lia).
    destruct (0 <=? i + 1 + Z.of_nat (length a)) eqn:Hle; [lia|].
    apply Z.leb_gt in Hle. lia.
Qed.

Lemma basename_no_sep b : sep ∉ b → os_path_basename b = b.
Proof.
  intros Hb. unfold os_path_basename, rfind.
  by rewrite (rfind_from_absent _ _ _ Hb).
Qed.

Lemma basename_after_sep a b :
  sep ∉ b → os_path_basename (a ++ sep :: b) = b.
Proof.
  intros Hb. unfold os_path_basename, rfind.
  rewrite rfind_from_last by done.
  replace (Z.to_nat (0 + Z.of_nat (length a) + 1)) with (S (length a)) by lia.
  change (a ++ sep :: b) with (a ++ [sep] ++ b).
  rewrite app_assoc, drop_app_length'; [done|].
  rewrite length_app. simpl. lia.
Qed.

Lemma basename_join d name :
  sep ∉ name → os_path_basename (os_path_join d name) = name.
Proof.
  intros Hn. unfold os_path_join.
  assert (starts_with [sep] name = false) as ->.
  { destruct name as [|c name]; [done|]. simpl.
    apply not_elem_of_cons in Hn as [Hne _]. by rewrite decide_False. }
  destruct (bool_decide (d = [])) eqn:Hd; simpl.
  - apply bool_decide_eq_true in Hd as ->. by apply basename_no_sep.
  - destruct (ends_with sep d) eqn:He; [|by apply basename_after_sep].
    unfold ends_with in He. destruct (last d) as [c|] eqn:Hl; [|done].
    apply bool_decide_eq_true in He as ->.
    apply last_Some in Hl as [d' ->]. rewrite <- app_assoc.
    by apply basename_after_sep.
Qed.

(** The PDF the converter is expected to write is named after the file name
    of the spreadsheet alone: the directory of [xlsx_path], dots in it
    included, plays no part. *)
Theorem pdf_out_ignores_directory (d name out_dir : str) :
  sep ∉ name →
  pdf_out_of (os_path_join d name) out_dir
  = os_path_join out_dir ((os_path_splitext name).1 ++ py ".pdf").
Proof. intros Hn. unfold pdf_out_of. by rewrite basename_join. Qed.

(** ** The conversion step and the run *)

Lemma add_signature_and_date_not_pdf w input_pdf sig blank output_pdf date b :
  files w !! input_pdf = Some (Bytes b) →
  add_signature_and_date input_pdf sig blank output_pdf date w
  = (inl PdfReadError, w).
Proof.
  intros Hin.
  unfold add_signature_and_date, PdfReader, read_file, lift, mbind, M_bind.
  by rewrite Hin.
Qed.

Lemma falsy_false d : falsy d = false → ∃ x, d = Some x ∧ falsy (Some x) = false.
Proof. destruct d as [x|]; [eauto|done]. Qed.

Lemma signed_key_neq k : signed_key k ≠ k.
Proof.
  intros H. apply (f_equal length) in H. unfold signed_key in H.
  rewrite !length_app in H. simpl in H. lia.
Qed.

Lemma signed_key_inj k1 k2 : signed_key k1 = signed_key k2 → k1 = k2.
Proof.
  unfold signed_key. intros H. apply app_inv_head in H.
  by apply app_inv_tail in H.
Qed.

Lemma cleanup_lookup dir w path :
  starts_with (dir ++ [sep]) path = true →
  files (cleanup dir w) !! path = None.
Proof.
  intros Hp. unfold cleanup. simpl.
  apply map_lookup_filter_None. right. intros x _. simpl. congruence.
Qed.

Lemma join_under_dir dir name :
  dir ≠ [] → ends_with sep dir = false → starts_with [sep] name = false →
  starts_with (dir ++ [sep]) (os_path_join dir name) = true.
Proof.
  intros Hd He Hn. unfold os_path_join. rewrite Hn, He.
  rewrite bool_decide_eq_false_2 by done. simpl.
  apply starts_with_spec. exists name. by rewrite <- app_assoc.
Qed.

Section RunMore.

Variable soffice_run : list str → gmap str data → CompletedProcess * gmap str data.
Variables today_date temp_dir : str.

(** The conversion step itself touches neither the store nor the files: the
    file system afterwards is the one the converter left, the converter ran
    once with the command line of lines 88-93, and a returned path is the
    expected output path, present in the file system, after exit status 0. *)
Theorem convert_xlsx_to_pdf_post (xlsx_path out_dir : str) (w : World) :
  let cmd := soffice_cmd xlsx_path out_dir in
  let r := (convert_xlsx_to_pdf soffice_run xlsx_path out_dir w).1 in
  let w' := (convert_xlsx_to_pdf soffice_run xlsx_path out_dir w).2 in
  kv_store w' = kv_store w
  ∧ effects w' = effects w ++ [ConverterRun cmd]
  ∧ files w' = (soffice_run cmd (files w)).2
  ∧ ∀ p, r = inr p →
         p = pdf_out_of xlsx_path out_dir
         ∧ is_Some (files w' !! p)
         ∧ returncode (soffice_run cmd (files w)).1 = 0.
Proof.
  cbn zeta. rewrite convert_xlsx_to_pdf_unfold. cbn zeta.
  destruct (_ =? 0) eqn:Hrc; simpl.
  - destruct (bool_decide _) eqn:Hex; simpl.
    + split_and!; [done..|]. intros p [= <-].
      apply bool_decide_eq_true in Hex. apply Z.eqb_eq in Hrc. done.
    + split_and!; done.
  - split_and!; done.
Qed.

Lemma main_empty_key w :
  default ∅ (actor_input w) !! py "xlsx_key" = Some [] →
  main soffice_run today_date temp_dir w =
    (inl (ValueError (py "No XLSX file key provided in input")), w).
Proof.
  intros Hk. unfold main, Actor_get_input, mbind, M_bind. by rewrite Hk.
Qed.

Lemma main_falsy w k :
  default ∅ (actor_input w) !! py "xlsx_key" = Some k →
  k ≠ [] →
  falsy (kv_store w !! k) || falsy (kv_store w !! signature_key_of w)
  || falsy (kv_store w !! blank_image_key_of w) = true →
  main soffice_run today_date temp_dir w =
    (inl (FileNotFoundError
            (py "One or more input files not found in key-value store")), w).
Proof.
  intros Hk Hne Hf.
  unfold main, Actor_get_input, get_value, mbind, M_bind.
  rewrite Hk. destruct k as [|c k]; [done|].
  fold (signature_key_of w). fold (blank_image_key_of w). by rewrite Hf.
Qed.

(** The run from the point where the conversion has succeeded. *)
Lemma main_converted w k x s b :
  default ∅ (actor_input w) !! py "xlsx_key" = Some k →
  k ≠ [] →
  kv_store w !! k = Some x →
  kv_store w !! signature_key_of w = Some s →
  kv_store w !! blank_image_key_of w = Some b →
  falsy (Some x) = false → falsy (Some s) = false →
  falsy (Some b) = false →
  ¬ conversion_failed soffice_run
      (os_path_join temp_dir (py "input.xlsx")) temp_dir
      (staged temp_dir x s b w) →
  main soffice_run today_date temp_dir w =
    let w2 := converted soffice_run temp_dir x s b w in
    let output_pdf := os_path_join temp_dir (py "output.pdf") in
    match
      add_signature_and_date (expected_pdf temp_dir)
        (os_path_join temp_dir (py "signature.png"))
        (os_path_join temp_dir (py "line.png")) output_pdf today_date w2
    with
    | (inl e, w3) => (inl e, cleanup temp_dir w3)
    | (inr _, w3) =>
        match files w3 !! output_pdf with
        | Some output =>
            (inr (),
             cleanup temp_dir
               (push_data (py "success") (signed_key k)
                  (set_value (signed_key k) output (py "application/pdf")
                     w3).2).2)
        | None => (inl (FileNotFoundError output_pdf), cleanup temp_dir w3)
        end
    end.
Proof.
  intros Hk Hne Hx Hs Hb Fx Fs Fb Hok.
  rewrite (main_staged soffice_run today_date temp_dir w k x s b) by done.
  unfold with_TemporaryDirectory. cbn zeta.
  unfold mbind at 1, M_bind at 1.
  rewrite convert_xlsx_to_pdf_unfold. cbn zeta.
  rewrite <- conversion_failed_iff in Hok. cbn zeta in Hok.
  apply not_false_is_true in Hok. rewrite Hok.
  fold (expected_pdf temp_dir). fold (converted soffice_run temp_dir x s b w).
  unfold mbind, M_bind.
  destruct (add_signature_and_date _ _ _ _ _ _) as [[e|[]] w3]; [done|].
  unfold read_file. fold (signed_key k).
  by destruct (files w3 !! _).
Qed.

End RunMore.

Section RunOutcomes.

Variable soffice_run : list str → gmap str data → CompletedProcess * gmap str data.
Variables today_date temp_dir : str.

Lemma failed_quietly_refl w : failed_quietly w w.
Proof. split; [done|]. exists []. by rewrite app_nil_r. Qed.

Lemma failed_quietly_converted w x s b :
  failed_quietly w
    (cleanup temp_dir (converted soffice_run temp_dir x s b w)).
Proof.
  split; [done|]. eexists. simpl. rewrite <- !app_assoc. simpl.
  split; [done|]. by repeat constructor.
Qed.

Lemma main_success_run w k x s b pages out :
  default ∅ (actor_input w) !! py "xlsx_key" = Some k →
  k ≠ [] →
  kv_store w !! k = Some x →
  kv_store w !! signature_key_of w = Some s →
  kv_store w !! blank_image_key_of w = Some b →
  falsy (Some x) = false → falsy (Some s) = false →
  falsy (Some b) = false →
  ¬ conversion_failed soffice_run
      (os_path_join temp_dir (py "input.xlsx")) temp_dir
      (staged temp_dir x s b w) →
  files (converted soffice_run temp_dir x s b w) !! expected_pdf temp_dir
  = Some (Pdf pages) →
  compose_pages pages (os_path_join temp_dir (py "signature.png"))
    (os_path_join temp_dir (py "line.png")) today_date = inr out →
  ∃ w',
    main soffice_run today_date temp_dir w = (inr (), w')
    ∧ succeeded soffice_run today_date temp_dir w w' k x s b pages out.
Proof.
  intros Hk Hne Hx Hs Hb Fx Fs Fb Hok Hpdf Hout.
  rewrite (main_converted soffice_run today_date temp_dir w k x s b) by done.
  cbn zeta. rewrite (add_signature_and_date_ok _ _ _ _ _ _ pages out) by done.
  unfold write_file. cbn [files log_effect]. rewrite lookup_insert_eq.
  eexists. split; [done|].
  unfold succeeded. split_and!; try done.
  simpl. by rewrite <- !app_assoc.
Qed.

(** Every run either fails quietly or succeeds after all its steps. *)
Lemma main_cases w :
  let r := (main soffice_run today_date temp_dir w).1 in
  let w' := (main soffice_run today_date temp_dir w).2 in
  ((∃ e, r = inl e) ∧ failed_quietly w w')
  ∨ (r = inr () ∧ ∃ k x s b pages out, succeeded soffice_run today_date temp_dir w w' k x s b pages out).
Proof.
  cbn zeta.
  destruct (default ∅ (actor_input w) !! py "xlsx_key") as [k|] eqn:Hk.
  2: { left. rewrite main_no_key by done. simpl.
       split; [eauto|apply failed_quietly_refl]. }
  destruct (decide (k = [])) as [->|Hne].
  { left. rewrite main_empty_key by done. simpl.
    split; [eauto|apply failed_quietly_refl]. }
  destruct (falsy (kv_store w !! k) || falsy (kv_store w !! signature_key_of w)
            || falsy (kv_store w !! blank_image_key_of w)) eqn:Hf.
  { left. rewrite (main_falsy _ _ _ w k) by done. simpl.
    split; [eauto|apply failed_quietly_refl]. }
  apply orb_false_elim in Hf as [Hf Fb]. apply orb_false_elim in Hf as [Fx Fs].
  apply falsy_false in Fx as (x & Hx & Fx).
  apply falsy_false in Fs as (s & Hs & Fs).
  apply falsy_false in Fb as (b & Hb & Fb).
  destruct ((returncode
               (converter_result soffice_run
                  (soffice_cmd (os_path_join temp_dir (py "input.xlsx"))
                     temp_dir)
                  (staged temp_dir x s b w)) =? 0)
            && bool_decide
                 (is_Some
                    (files
                       (after_converter soffice_run
                          (soffice_cmd
                             (os_path_join temp_dir (py "input.xlsx"))
                             temp_dir)
                          (staged temp_dir x s b w))
                     !! pdf_out_of (os_path_join temp_dir (py "input.xlsx"))
                          temp_dir))) eqn:Hc.
  2: { left. apply conversion_failed_iff in Hc.
       rewrite (main_conversion_fails _ _ _ w k x s b) by done. simpl.
       split; [eauto|]. apply failed_quietly_converted. }
  assert (¬ conversion_failed soffice_run
              (os_path_join temp_dir (py "input.xlsx")) temp_dir
              (staged temp_dir x s b w)) as Hok.
  { rewrite <- conversion_failed_iff. cbn zeta. by rewrite Hc. }
  destruct (files (converted soffice_run temp_dir x s b w)
            !! expected_pdf temp_dir) as [[bs|pages]|] eqn:Hpdf.
  - left. rewrite (main_converted _ _ _ w k x s b) by done. cbn zeta.
    rewrite (add_signature_and_date_not_pdf _ _ _ _ _ _ bs) by done. simpl.
    split; [eauto|]. apply failed_quietly_converted.
  - destruct (compose_pages pages
                (os_path_join temp_dir (py "signature.png"))
                (os_path_join temp_dir (py "line.png")) today_date)
      as [e|out] eqn:Hout.
    + left. rewrite (main_converted _ _ _ w k x s b) by done. cbn zeta.
      rewrite (add_signature_and_date_fails _ _ _ _ _ _ pages e) by done.
      simpl. split; [eauto|]. apply failed_quietly_converted.
    + right.
      destruct (main_success_run w k x s b pages out) as (w' & -> & Hsucc);
        try done.
      simpl. split; [done|]. by exists k, x, s, b, pages, out.
  - left. rewrite (main_converted _ _ _ w k x s b) by done. cbn zeta.
    unfold add_signature_and_date, PdfReader, read_file, mbind, M_bind.
    rewrite Hpdf. simpl. split; [eauto|]. apply failed_quietly_converted.
Qed.

End RunOutcomes.

Section RunProperties.

Variable soffice_run : list str → gmap str data → CompletedProcess * gmap str data.
Variables today_date temp_dir : str.


(** A run succeeds only after every step has: a non-empty key, three
    non-empty blobs, exit status 0 with the expected file present, that file
    a PDF with at least one page; and then the store differs from the one
    it started with by the signed document alone. *)
Theorem run_succeeds_only_if (w : World) :
  (main soffice_run today_date temp_dir w).1 = inr () →
  ∃ k x s b pages out,
    succeeded soffice_run today_date temp_dir w
      (main soffice_run today_date temp_dir w).2 k x s b pages out
    ∧ pages ≠ []
    ∧ returncode
        (converter_result soffice_run
           (soffice_cmd (os_path_join temp_dir (py "input.xlsx")) temp_dir)
           (staged temp_dir x s b w)) = 0.
Proof.
  intros Hr.
  destruct (main_cases soffice_run today_date temp_dir w)
    as [[[e He] _]|[_ (k & x & s & b & pages & out & Hsucc)]];
    [congruence|].
  exists k, x, s, b, pages, out. split; [done|].
  destruct Hsucc as (_ & _ & _ & _ & _ & _ & _ & _ & Hok & _ & Hout & _).
  split.
  - intros ->. by rewrite compose_pages_nil in Hout.
  - destruct (decide (returncode
                        (converter_result soffice_run
                           (soffice_cmd
                              (os_path_join temp_dir (py "input.xlsx"))
                              temp_dir)
                           (staged temp_dir x s b w)) = 0)) as [|Hne];
      [done|].
    destruct Hok. by left.
Qed.

(** Whatever makes a run fail, it publishes nothing: the store is as it was,
    and the effects added hold no stored blob and no pushed record. *)
Theorem run_failure_publishes_nothing (w : World) (e : exn) :
  (main soffice_run today_date temp_dir w).1 = inl e →
  let w' := (main soffice_run today_date temp_dir w).2 in
  kv_store w' = kv_store w
  ∧ ∃ l, effects w' = effects w ++ l
         ∧ Forall (λ ev, is_publication ev = false) l.
Proof.
  intros Hr.
  destruct (main_cases soffice_run today_date temp_dir w)
    as [[_ Hq]|[Hok _]]; [exact Hq|congruence].
Qed.

(** An empty key is no key, and an empty blob is a missing blob: both end
    the run with the error of the missing input, the world unchanged. *)
Theorem empty_key_or_blob_is_missing (w : World) :
  (default ∅ (actor_input w) !! py "xlsx_key" = Some [] →
   main soffice_run today_date temp_dir w =
     (inl (ValueError (py "No XLSX file key provided in input")), w))
  ∧ (∀ k,
       default ∅ (actor_input w) !! py "xlsx_key" = Some k →
       k ≠ [] →
       kv_store w !! k = Some (Bytes [])
       ∨ kv_store w !! signature_key_of w = Some (Bytes [])
       ∨ kv_store w !! blank_image_key_of w = Some (Bytes []) →
       main soffice_run today_date temp_dir w =
         (inl (FileNotFoundError
                 (py "One or more input files not found in key-value store")),
          w)).
Proof.
  split; [apply main_empty_key|].
  intros k Hk Hne Hempty. apply (main_falsy _ _ _ w k); [done..|].
  destruct Hempty as [->|[->| ->]]; simpl; by rewrite ?orb_true_r.
Qed.

Lemma with_TemporaryDirectory_world {A} dir (body : str → M A) w :
  (with_TemporaryDirectory dir body w).2 = cleanup dir (body dir w).2.
Proof. unfold with_TemporaryDirectory. by destruct (body dir w). Qed.

(** Once the inputs are there, the run leaves nothing in its temporary
    directory, however it ends: no file [temp_dir/name] exists afterwards. *)
Theorem run_leaves_no_temp_files (w : World) (k : str) (x s b : data)
    (name : str) :
  default ∅ (actor_input w) !! py "xlsx_key" = Some k →
  k ≠ [] →
  kv_store w !! k = Some x →
  kv_store w !! signature_key_of w = Some s →
  kv_store w !! blank_image_key_of w = Some b →
  falsy (Some x) = false → falsy (Some s) = false →
  falsy (Some b) = false →
  temp_dir ≠ [] → ends_with sep temp_dir = false →
  starts_with [sep] name = false →
  files (main soffice_run today_date temp_dir w).2
  !! os_path_join temp_dir name = None.
Proof.
  intros Hk Hne Hx Hs Hb Fx Fs Fb Hd He Hn.
  rewrite (main_staged soffice_run today_date temp_dir w k x s b) by done.
  rewrite with_TemporaryDirectory_world.
  by apply cleanup_lookup, join_under_dir.
Qed.

(** A run changes the store at most at [signed_<key>.pdf]: every other key,
    the spreadsheet's own among them, keeps its blob.  Different spreadsheet
    keys give different output keys. *)
Theorem run_touches_one_key (w : World) (k : str) :
  default ∅ (actor_input w) !! py "xlsx_key" = Some k →
  let w' := (main soffice_run today_date temp_dir w).2 in
  (∀ j, j ≠ signed_key k → kv_store w' !! j = kv_store w !! j)
  ∧ kv_store w' !! k = kv_store w !! k
  ∧ ∀ k2, signed_key k = signed_key k2 → k = k2.
Proof.
  intros Hk. cbn zeta.
  assert (∀ j, j ≠ signed_key k →
               kv_store (main soffice_run today_date temp_dir w).2 !! j
               = kv_store w !! j) as Hother.
  { intros j Hj.
    destruct (main_cases soffice_run today_date temp_dir w)
      as [[_ [Hkv _]]|[_ (k' & x & s & b & pages & out & Hsucc)]].
    - by rewrite Hkv.
    - destruct Hsucc as (Hk' & _ & _ & _ & _ & _ & _ & _ & _ & _ & _ & Hkv & _).
      simplify_eq. rewrite Hkv. by rewrite lookup_insert_ne. }
  split_and!; [done| |apply signed_key_inj].
  apply Hother. intros H. by apply (signed_key_neq k).
Qed.

End RunProperties.

(** ** Instances of the further properties *)

Lemma locator_finds_iff_witness :
  (∃ c has_date,
     find_text_coordinates (text_page two_lines) SIGNATURE_MARKER
     = inr (Some c, has_date))
  ↔ ∃ l, l ∈ page_lines two_lines ∧ contains_caseless SIGNATURE_MARKER l.
Proof.
  exact (locator_finds_iff (text_page two_lines) two_lines SIGNATURE_MARKER
           eq_refl).
Defined.

Lemma locator_coordinate_range_witness :
  100 = 100
  ∧ ∃ text k,
      extract_text (text_page two_lines) = inr (Some text)
      ∧ (1 ≤ k ≤ S (line_feeds text))%nat
      ∧ 752 = 792 - 20 * Z.of_nat k
      ∧ 792 - 20 * Z.of_nat (S (line_feeds text)) ≤ 752 ≤ 772.
Proof.
  exact (locator_coordinate_range (text_page two_lines) SIGNATURE_MARKER
           100 752 false eq_refl).
Defined.

Lemma locator_marker_case_witness :
  ∃ c h1 h2,
    find_text_coordinates (text_page dated_text) DATE_MARKER = inr (c, h1)
    ∧ find_text_coordinates (text_page dated_text) (py "DATE:") = inr (c, h2).
Proof.
  exact (locator_marker_case (text_page dated_text) DATE_MARKER (py "DATE:")
           eq_refl).
Defined.

Lemma date_flag_needs_exact_marker_witness :
  DATE_MARKER = DATE_MARKER ∧ is_Some (Some (100, 772)).
Proof.
  exact (date_flag_needs_exact_marker (text_page dated_text) DATE_MARKER
           (Some (100, 772)) eq_refl).
Defined.



Lemma add_signature_and_date_fails_clean_witness :
  add_signature_and_date (py "in.pdf") (py "sig.png") (py "line.png")
    (py "out.pdf") (py "01/02/2024") (disk []) = (inl IndexError, disk [])
  ∧ ∃ msg,
      add_signature_and_date (py "nope.pdf") (py "sig.png") (py "line.png")
        (py "out.pdf") (py "01/02/2024") (disk [])
      = (inl (FileNotFoundError msg), disk []).
Proof.
  split.
  - apply (proj2 (proj2 (proj2 (add_signature_and_date_fails_clean (disk [])
             (py "in.pdf") (py "sig.png") (py "line.png") (py "out.pdf")
             (py "01/02/2024"))))).
    reflexivity.
  - apply (proj1 (proj2 (add_signature_and_date_fails_clean (disk [])
             (py "nope.pdf") (py "sig.png") (py "line.png") (py "out.pdf")
             (py "01/02/2024")))).
    reflexivity.
Defined.

Lemma add_signature_and_date_frame_witness :
  let w' :=
    (add_signature_and_date (py "in.pdf") (py "sig.png") (py "line.png")
       (py "out.pdf") (py "01/02/2024") (disk (document 3))).2 in
  kv_store w' = kv_store (disk (document 3))
  ∧ actor_input w' = actor_input (disk (document 3))
  ∧ effects w' = effects (disk (document 3)) ++ [FileWritten (py "out.pdf")]
  ∧ (∀ path, path ≠ py "out.pdf" →
             files w' !! path = files (disk (document 3)) !! path)
  ∧ ∃ pages out,
      files (disk (document 3)) !! py "in.pdf" = Some (Pdf pages)
      ∧ compose_pages pages (py "sig.png") (py "line.png") (py "01/02/2024")
        = inr out
      ∧ files w' !! py "out.pdf" = Some (Pdf out).
Proof.
  exact (add_signature_and_date_frame (disk (document 3)) (py "in.pdf")
           (py "sig.png") (py "line.png") (py "out.pdf") (py "01/02/2024")
           eq_refl).
Defined.

Lemma pdf_out_ignores_directory_witness :
  pdf_out_of (os_path_join (py "/tmp/a.b") (py "input.xlsx")) (py "/out")
  = py "/out/input.pdf".
Proof.
  apply (pdf_out_ignores_directory (py "/tmp/a.b") (py "input.xlsx")
           (py "/out")).
  intros H. repeat (apply elem_of_cons in H as [H|H]; [discriminate|]).
  by apply elem_of_nil in H.
Defined.

Lemma convert_xlsx_to_pdf_post_witness :
  py "/tmp/t/input.pdf" = py "/tmp/t/input.pdf"
  ∧ is_Some
      (files
         (convert_xlsx_to_pdf (good_soffice 3) (py "/tmp/t/input.xlsx")
            (py "/tmp/t") demo_world).2 !! py "/tmp/t/input.pdf")
  ∧ returncode
      (good_soffice 3
         (soffice_cmd (py "/tmp/t/input.xlsx") (py "/tmp/t"))
         (files demo_world)).1 = 0.
Proof.
  apply (proj2 (proj2 (proj2 (convert_xlsx_to_pdf_post (good_soffice 3)
           (py "/tmp/t/input.xlsx") (py "/tmp/t") demo_world)))
           (py "/tmp/t/input.pdf")).
  reflexivity.
Defined.


Lemma run_succeeds_only_if_witness :
  ∃ k x s b pages out,
    succeeded (good_soffice 3) (py "01/02/2024") (py "/tmp/t") demo_world
      (main (good_soffice 3) (py "01/02/2024") (py "/tmp/t") demo_world).2
      k x s b pages out
    ∧ pages ≠ []
    ∧ returncode
        (converter_result (good_soffice 3)
           (soffice_cmd (os_path_join (py "/tmp/t") (py "input.xlsx"))
              (py "/tmp/t"))
           (staged (py "/tmp/t") x s b demo_world)) = 0.
Proof.
  exact (run_succeeds_only_if (good_soffice 3) (py "01/02/2024")
           (py "/tmp/t") demo_world eq_refl).
Defined.

Lemma run_failure_publishes_nothing_witness :
  let w' :=
    (main garbage_soffice (py "01/02/2024") (py "/tmp/t") demo_world).2 in
  kv_store w' = kv_store demo_world
  ∧ ∃ l, effects w' = effects demo_world ++ l
         ∧ Forall (λ ev, is_publication ev = false) l.
Proof.
  exact (run_failure_publishes_nothing garbage_soffice (py "01/02/2024")
           (py "/tmp/t") demo_world PdfReadError eq_refl).
Defined.

Lemma empty_key_or_blob_is_missing_witness :
  main (good_soffice 3) (py "01/02/2024") (py "/tmp/t") empty_key_world
  = (inl (ValueError (py "No XLSX file key provided in input")),
     empty_key_world)
  ∧ main (good_soffice 3) (py "01/02/2024") (py "/tmp/t") empty_blob_world
    = (inl (FileNotFoundError
              (py "One or more input files not found in key-value store")),
       empty_blob_world).
Proof.
  split.
  - apply (proj1 (empty_key_or_blob_is_missing (good_soffice 3)
                    (py "01/02/2024") (py "/tmp/t") empty_key_world)).
    reflexivity.
  - apply (proj2 (empty_key_or_blob_is_missing (good_soffice 3)
                    (py "01/02/2024") (py "/tmp/t") empty_blob_world)
             (py "book")).
    + reflexivity.
    + discriminate.
    + left. reflexivity.
Defined.

Lemma run_leaves_no_temp_files_witness :
  files (main bad_soffice (py "01/02/2024") (py "/tmp/t") demo_world).2
  !! py "/tmp/t/input.xlsx" = None.
Proof.
  apply (run_leaves_no_temp_files bad_soffice (py "01/02/2024") (py "/tmp/t")
           demo_world (py "book") (Bytes (py "xlsx")) (Bytes (py "sig"))
           (Bytes (py "line")) (py "input.xlsx")); try reflexivity;
    discriminate.
Defined.

Lemma run_touches_one_key_witness :
  let w' :=
    (main (good_soffice 3) (py "01/02/2024") (py "/tmp/t") demo_world).2 in
  (∀ j, j ≠ signed_key (py "book") →
        kv_store w' !! j = kv_store demo_world !! j)
  ∧ kv_store w' !! py "book" = kv_store demo_world !! py "book"
  ∧ ∀ k2, signed_key (py "book") = signed_key k2 → py "book" = k2.
Proof.
  exact (run_touches_one_key (good_soffice 3) (py "01/02/2024") (py "/tmp/t")
           demo_world (py "book") eq_refl).
Defined.

(** ** Both markers on one line *)

Lemma compose_pages_head p0 rest sig blank date sc hs dc hd :
  find_text_coordinates p0 SIGNATURE_MARKER = inr (sc, hs) →
  find_text_coordinates p0 DATE_MARKER = inr (dc, hd) →
  ∃ tail,
    compose_pages (p0 :: rest) sig blank date =
      inr (merge_page p0 (page1_overlay sc dc hd sig blank date) :: tail).
Proof.
  intros Hs Hd. destruct rest as [|p1 rest].
  - eexists. by apply (compose_pages_one _ _ _ _ sc hs dc hd).
  - destruct (find_text_coordinates_total p1 SIGNATURE_MARKER)
      as [[sc1 hs1] Hs1].
    eexists. by apply (compose_pages_more _ _ _ _ _ _ sc hs dc hd sc1 hs1).
Qed.

(** The locator gives every marker the same [x]: when the first line with
    the signature marker is also the first line with the date marker, the
    signature image and the date filler of page 1 are drawn at the same
    point, the filler and the date text on top of the signature image. *)
Theorem markers_on_one_line_overlap (p0 : Page) (rest : list Page)
    (text : str) (i : nat) (line : str) (sig blank date : str) :
  extract_text p0 = inr (Some text) →
  first_match SIGNATURE_MARKER (page_lines text) i line →
  first_match DATE_MARKER (page_lines text) i line →
  let y := 792 - (Z.of_nat i + 1) * 20 - 10 in
  ∃ has_date tail,
    find_text_coordinates p0 DATE_MARKER
    = inr (Some (100, y + 10), has_date)
    ∧ compose_pages (p0 :: rest) sig blank date =
        inr (merge_page p0
               (DrawImage sig 180 y 120 30
                :: (if has_date then []
                    else [DrawImage blank 180 y 80 10;
                          DrawString 180 (y + 5) date (py "Helvetica") 9]))
             :: tail).
Proof.
  intros Ht Hsig Hdate y.
  pose proof (find_text_coordinates_text p0 text SIGNATURE_MARKER Ht) as Hs.
  pose proof (find_text_coordinates_text p0 text DATE_MARKER Ht) as Hd.
  rewrite (scan_lines_first _ _ 0 _ i line Hsig) in Hs.
  rewrite (scan_lines_first _ _ 0 _ i line Hdate) in Hd.
  destruct (compose_pages_head p0 rest sig blank date _ _ _ _ Hs Hd)
    as [tail Hc].
  simpl in Hd, Hc.
  exists (has_date_at (page_lines text) DATE_MARKER i line), tail. split.
  - rewrite Hd.
    by replace (y + 10) with (792 - (Z.of_nat i + 1) * 20) by (subst y; lia).
  - rewrite Hc. done.
Qed.

Lemma markers_on_one_line_overlap_witness :
  ∃ has_date tail,
    find_text_coordinates (text_page (py "Signature: Date: ")) DATE_MARKER
    = inr (Some (100, 762 + 10), has_date)
    ∧ compose_pages [text_page (py "Signature: Date: ")] (py "sig.png")
        (py "line.png") (py "01/02/2024") =
        inr (merge_page (text_page (py "Signature: Date: "))
               (DrawImage (py "sig.png") 180 762 120 30
                :: (if has_date then []
                    else [DrawImage (py "line.png") 180 762 80 10;
                          DrawString 180 (762 + 5) (py "01/02/2024")
                            (py "Helvetica") 9]))
             :: tail).
Proof.
  apply (markers_on_one_line_overlap (text_page (py "Signature: Date: ")) []
           (py "Signature: Date: ") 0 (py "Signature: Date: ")
           (py "sig.png") (py "line.png") (py "01/02/2024") eq_refl).
  - split_and!; [reflexivity|apply contains_lower_iff; reflexivity|].
    intros j l Hj. lia.
  - split_and!; [reflexivity|apply contains_lower_iff; reflexivity|].
    intros j l Hj. lia.
Defined.
